(** * CT console simulator: exam workflow gate and scout planning geometry

    A shallow embedding of the operator workflow of the simulator:

    - [SimTomLayout] (the layout component that owns the case identifier,
      the scout refresh token, the planning flag, the scan state and the
      planning data handed to the control panel),
    - [LeftControlPanel] (the workflow buttons, their enabling conditions and
      the [planningCompleted] flag),
    - [ScoutViewer] (the planning lines and the FOV box dragged with the
      mouse on the scout image).

    Conventions of the embedding.

    - A JavaScript [number] is an exact rational ([Q]): rounding of binary
      floating point, NaN and the infinities are outside the model.  Division
      is the total division of [Q].  [Math.max], [Math.min] and [Math.round]
      are [Qmax], [Qmin] and "floor of x + 1/2".
    - React state is an explicit record; a handler is a function from the
      state before the event to the state after it.  An [async] handler runs
      atomically: the outcome of the awaited backend call is an argument.
      Module [Async], at the end, splits each such handler at its [await] and
      lets the continuation arrive after other events.
    - [useEffect] hooks are run after the handler ([App.caseEffects],
      [App.refreshEffect], [App.notifyPlanning]), each one guarded by the
      change of its dependency list.
    - One render separates two events: the [planning] a handler closes over
      is the [prev] its state updater receives.
    - [loading] and [error] (false and null between two events), the patient
      form, the table position, the reconstruction parameters, [zRange] and
      the active tab do not influence the workflow flags or the geometry and
      are left out; so is [scoutUrl], which is set and cleared together with
      [scoutSize]. *)

From Stdlib Require Import QArith Qround Qminmax ZArith List String Bool Lia Lqa.
Import ListNotations.

Open Scope Q_scope.

(** ** JavaScript [Math] on rationals *)

Definition Math_max (a b : Q) : Q := Qmax a b.
Definition Math_min (a b : Q) : Q := Qmin a b.
Definition Math_round (x : Q) : Q := inject_Z (Qfloor (x + (1 # 2))).

(** ** ScoutViewer.tsx *)

Module FOV.
Record t : Type := mk { x_min : Q; x_max : Q; y_min : Q; y_max : Q }.
End FOV.

(** [interface PlanningLines] *)
Module PlanningLines.
Record t : Type := mk { startY : Q; endY : Q; fov : FOV.t }.
End PlanningLines.

(** The argument of [onPlanningDataReady] and the [planningData] state of the
    layout; every field is optional there ([useState({})]). *)
Module PlanningData.
Record t : Type := mk {
  z_pixel_start : option Q;
  z_pixel_end : option Q;
  scout_height_px : option Q;
  fov : option FOV.t }.
Definition empty : t := mk None None None None.
End PlanningData.

(** [scoutSize] *)
Module Size.
Record t : Type := mk { width : Q; height : Q }.
End Size.

(** The value of [dragStartRef.current] *)
Module DragStart.
Record t : Type := mk { y : Q; startY : Q; endY : Q; fov : FOV.t }.
End DragStart.

(** [containerRef.current.getBoundingClientRect()] *)
Module DOMRect.
Record t : Type := mk { left : Q; top : Q; width : Q; height : Q }.
End DOMRect.

Module MouseEvent.
Record t : Type := mk { clientX : Q; clientY : Q }.
End MouseEvent.

(** The type of the [dragging] state, without its [null]. *)
Inductive DragTarget : Type :=
| Drag_start | Drag_end | Drag_fov
| Drag_fov_top | Drag_fov_bottom | Drag_fov_left | Drag_fov_right.

(** What the scout source gave [loadScout]: an image of [cols] x [rows]
    pixels (either branch: generated from the frontend volume, or the backend
    response), no response ([getScoutImage] returned null), or an exception. *)
Inductive ScoutOutcome : Type :=
| Loaded (cols rows : Q)
| NoResponse
| Threw.

Module ScoutViewer.

Record State : Type := mk {
  scoutSize : option Size.t;
  planning : PlanningLines.t;
  dragging : option DragTarget;
  dragStartRef : DragStart.t }.

(** [useState<PlanningLines>({...})] *)
Definition initialPlanning : PlanningLines.t :=
  PlanningLines.mk 100 400 (FOV.mk 100 300 100 300).

Definition init : State :=
  mk None initialPlanning None
     (DragStart.mk 0 0 0 (PlanningLines.fov initialPlanning)).

Definition setPlanning (v : State) (p : PlanningLines.t) : State :=
  mk (scoutSize v) p (dragging v) (dragStartRef v).

(** The planning installed by [loadScout] for an image of [cols] x [rows]. *)
Definition defaultPlanning (cols rows : Q) : PlanningLines.t :=
  let defaultStartY := Math_round (rows * 0.2) in
  let defaultEndY := Math_round (rows * 0.8) in
  let defaultFovMargin := Math_round (cols * 0.2) in
  PlanningLines.mk defaultStartY defaultEndY
    (FOV.mk defaultFovMargin (cols - defaultFovMargin)
            defaultStartY defaultEndY).

Definition loadScout (v : State) (o : ScoutOutcome) : State :=
  match o with
  | Loaded cols rows =>
      mk (Some (Size.mk cols rows)) (defaultPlanning cols rows)
         (dragging v) (dragStartRef v)
  | NoResponse => v
  | Threw => v
  end.

(** The effect on [caseId]: the scout is cleared when there is no case. *)
Definition clearOnCaseChange (caseId : string) (v : State) : State :=
  if String.eqb caseId EmptyString
  then mk None initialPlanning (dragging v) (dragStartRef v)
  else v.

Definition handleMouseDown (isPlanningActive : bool) (v : State)
    (e : MouseEvent.t) (target : DragTarget) : State :=
  if negb isPlanningActive then v
  else
    mk (scoutSize v) (planning v) (Some target)
       (DragStart.mk (MouseEvent.clientY e)
          (PlanningLines.startY (planning v))
          (PlanningLines.endY (planning v))
          (PlanningLines.fov (planning v))).

(** [None] is the early return: no state is set. *)
Definition handleMouseMove (v : State) (rect : DOMRect.t)
    (e : MouseEvent.t) : option State :=
  match dragging v, scoutSize v with
  | Some target, Some size =>
      let scaleY := Size.height size / DOMRect.height rect in
      let scaleX := Size.width size / DOMRect.width rect in
      let deltaY :=
        (MouseEvent.clientY e - DragStart.y (dragStartRef v)) * scaleY in
      let deltaX := (MouseEvent.clientX e - DOMRect.left rect) * scaleX in
      let currentY := (MouseEvent.clientY e - DOMRect.top rect) * scaleY in
      let prev := planning v in
      let pfov := PlanningLines.fov prev in
      Some (setPlanning v
        match target with
        | Drag_start =>
            let newStartY :=
              Math_max 0 (Math_min (DragStart.startY (dragStartRef v) + deltaY)
                                   (PlanningLines.endY prev - 20)) in
            PlanningLines.mk newStartY (PlanningLines.endY prev)
              (FOV.mk (FOV.x_min pfov) (FOV.x_max pfov)
                      newStartY (FOV.y_max pfov))
        | Drag_end =>
            let newEndY :=
              Math_min (Size.height size)
                (Math_max (DragStart.endY (dragStartRef v) + deltaY)
                          (PlanningLines.startY prev + 20)) in
            PlanningLines.mk (PlanningLines.startY prev) newEndY
              (FOV.mk (FOV.x_min pfov) (FOV.x_max pfov)
                      (FOV.y_min pfov) newEndY)
        | Drag_fov =>
            let afov := DragStart.fov (dragStartRef v) in
            let fovWidth := FOV.x_max afov - FOV.x_min afov in
            let fovHeight := FOV.y_max afov - FOV.y_min afov in
            let newXMin :=
              Math_max 0 (Math_min (deltaX - fovWidth / 2)
                                   (Size.width size - fovWidth)) in
            let newYMin :=
              Math_max 0 (Math_min (currentY - fovHeight / 2)
                                   (Size.height size - fovHeight)) in
            PlanningLines.mk (PlanningLines.startY prev)
              (PlanningLines.endY prev)
              (FOV.mk newXMin (newXMin + fovWidth)
                      newYMin (newYMin + fovHeight))
        | Drag_fov_left =>
            let newXMin :=
              Math_max 0 (Math_min deltaX (FOV.x_max pfov - 20)) in
            PlanningLines.mk (PlanningLines.startY prev)
              (PlanningLines.endY prev)
              (FOV.mk newXMin (FOV.x_max pfov) (FOV.y_min pfov)
                      (FOV.y_max pfov))
        | Drag_fov_right =>
            let newXMax :=
              Math_min (Size.width size)
                       (Math_max deltaX (FOV.x_min pfov + 20)) in
            PlanningLines.mk (PlanningLines.startY prev)
              (PlanningLines.endY prev)
              (FOV.mk (FOV.x_min pfov) newXMax (FOV.y_min pfov)
                      (FOV.y_max pfov))
        | Drag_fov_top =>
            let newYMin :=
              Math_max 0 (Math_min currentY (FOV.y_max pfov - 20)) in
            PlanningLines.mk newYMin (PlanningLines.endY prev)
              (FOV.mk (FOV.x_min pfov) (FOV.x_max pfov) newYMin
                      (FOV.y_max pfov))
        | Drag_fov_bottom =>
            let newYMax :=
              Math_min (Size.height size)
                       (Math_max currentY (FOV.y_min pfov + 20)) in
            PlanningLines.mk (PlanningLines.startY prev) newYMax
              (FOV.mk (FOV.x_min pfov) (FOV.x_max pfov) (FOV.y_min pfov)
                      newYMax)
        end)
  | _, _ => None
  end.

(** The automatic save on release is logged only; the state change is
    [setDragging(null)]. *)
Definition handleMouseUp (v : State) : State :=
  match dragging v with
  | None => v
  | Some _ => mk (scoutSize v) (planning v) None (dragStartRef v)
  end.

(** The argument that the notification effect passes to
    [onPlanningDataReady]. *)
Definition planningDataOf (v : State) : option PlanningData.t :=
  match scoutSize v with
  | Some size =>
      Some (PlanningData.mk
              (Some (PlanningLines.startY (planning v)))
              (Some (PlanningLines.endY (planning v)))
              (Some (Size.height size))
              (Some (PlanningLines.fov (planning v))))
  | None => None
  end.

End ScoutViewer.

(** ** SimTomLayout (the layout component; file without a name in the
       sources) *)

Module ScanState.
Record t : Type := mk {
  isScanning : bool; currentSlice : Z; totalSlices : Z }.

(** [Partial<ScanState>] *)
Record partial : Type := mkPartial {
  p_isScanning : option bool;
  p_currentSlice : option Z;
  p_totalSlices : option Z }.

Definition orElse {A : Type} (o : option A) (d : A) : A :=
  match o with Some a => a | None => d end.

(** [{ ...prev, ...newState }] *)
Definition merge (prev : t) (newState : partial) : t :=
  mk (orElse (p_isScanning newState) (isScanning prev))
     (orElse (p_currentSlice newState) (currentSlice prev))
     (orElse (p_totalSlices newState) (totalSlices prev)).
End ScanState.

(** Outcome of an awaited backend call ([savePlanning],
    [applyReconstruction], [stopCt]). *)
Inductive CallOutcome : Type := Resolved | Rejected.

Module SimTomLayout.

Record State : Type := mk {
  caseId : string;
  scoutRefreshToken : Z;
  isPlanningActive : bool;
  scanState : ScanState.t;
  planningData : PlanningData.t;
  scoutCompleted : bool }.

Definition init : State :=
  mk EmptyString 0%Z false (ScanState.mk false 0 0) PlanningData.empty false.

(** [now] is the value of [Date.now()]. *)
Definition handleScoutScan (now : Z) (s : State) : State :=
  mk (caseId s) now (isPlanningActive s) (scanState s) (planningData s) true.

Definition handleScanStateChange (newState : ScanState.partial) (s : State)
  : State :=
  mk (caseId s) (scoutRefreshToken s) (isPlanningActive s)
     (ScanState.merge (scanState s) newState) (planningData s)
     (scoutCompleted s).

Definition handlePlanningStart (s : State) : State :=
  mk (caseId s) (scoutRefreshToken s) true (scanState s) (planningData s)
     (scoutCompleted s).

Definition handlePlanningEnd (now : Z) (s : State) : State :=
  mk (caseId s) now false (scanState s) (planningData s) (scoutCompleted s).

Definition handleCaseChange (newCaseId : string) (s : State) : State :=
  mk newCaseId 0%Z false (ScanState.mk false 0 0) PlanningData.empty false.

Definition setPlanningData (d : PlanningData.t) (s : State) : State :=
  mk (caseId s) (scoutRefreshToken s) (isPlanningActive s) (scanState s) d
     (scoutCompleted s).

(** The [onScanComplete] callback given to the image display area. *)
Definition onScanComplete (s : State) : State :=
  mk (caseId s) (scoutRefreshToken s) (isPlanningActive s)
     (ScanState.mk false (ScanState.currentSlice (scanState s))
                   (ScanState.totalSlices (scanState s)))
     (planningData s) (scoutCompleted s).

End SimTomLayout.

(** ** LeftControlPanel.tsx

    The panel reads the layout state through its props and changes it
    through the callbacks the layout passes: [onScoutScan = handleScoutScan],
    [onPlanningStart = handlePlanningStart], [onPlanningEnd =
    handlePlanningEnd], [onScanStateChange = handleScanStateChange],
    [onCaseChange = handleCaseChange].  A panel handler is therefore a
    function on the pair of the layout state and the panel state. *)

Module LeftControlPanel.

Record State : Type := mk { planningCompleted : bool }.

Definition init : State := mk false.

Section Gate.
Variable l : SimTomLayout.State.
Variable p : State.

Definition isScanning : bool :=
  ScanState.isScanning (SimTomLayout.scanState l).

Definition canStartPlanning : bool :=
  SimTomLayout.scoutCompleted l
  && negb (SimTomLayout.isPlanningActive l)
  && negb (planningCompleted p).
Definition canEndPlanning : bool := SimTomLayout.isPlanningActive l.
Definition canEditRecon : bool := planningCompleted p && negb isScanning.
Definition canStartScan : bool := planningCompleted p && negb isScanning.
End Gate.

(** The guard of [handleEndPlanning]: both z bounds are defined. *)
Definition wellFormed (d : PlanningData.t) : bool :=
  match PlanningData.z_pixel_start d, PlanningData.z_pixel_end d with
  | Some _, Some _ => true
  | _, _ => false
  end.

Definition handleScoutScan (now : Z) (lp : SimTomLayout.State * State)
  : SimTomLayout.State * State :=
  (SimTomLayout.handleScoutScan now (fst lp), snd lp).

Definition handleStartPlanning (lp : SimTomLayout.State * State)
  : SimTomLayout.State * State :=
  (SimTomLayout.handlePlanningStart (fst lp), snd lp).

(** [save] is the outcome of [savePlanning], awaited only for a
    well-formed [planningData]. *)
Definition handleEndPlanning (save : CallOutcome) (now : Z)
    (lp : SimTomLayout.State * State) : SimTomLayout.State * State :=
  let p' :=
    if wellFormed (SimTomLayout.planningData (fst lp)) then
      match save with
      | Resolved => mk true
      | Rejected => snd lp
      end
    else snd lp in
  (SimTomLayout.handlePlanningEnd now (fst lp), p').

(** [recon] is the outcome of [applyReconstruction], awaited only when
    there is a case. *)
Definition handleStartScan (recon : CallOutcome)
    (lp : SimTomLayout.State * State) : SimTomLayout.State * State :=
  let scanning :=
    ScanState.mkPartial (Some true) (Some 0%Z) (Some 0%Z) in
  if String.eqb (SimTomLayout.caseId (fst lp)) EmptyString then
    (SimTomLayout.handleScanStateChange scanning (fst lp), snd lp)
  else
    match recon with
    | Resolved =>
        (SimTomLayout.handleScanStateChange scanning (fst lp), snd lp)
    | Rejected => lp
    end.

Definition handleStopScan (lp : SimTomLayout.State * State)
  : SimTomLayout.State * State :=
  (SimTomLayout.handleScanStateChange
     (ScanState.mkPartial (Some false) None None) (fst lp), snd lp).

(** [stop] is the outcome of [stopCt]. *)
Definition handleStopCt (stop : CallOutcome)
    (lp : SimTomLayout.State * State) : SimTomLayout.State * State :=
  match stop with
  | Resolved => handleStopScan lp
  | Rejected => lp
  end.

End LeftControlPanel.

(** ** The mounted application: layout, control panel and scout viewer *)

Module App.

Record State : Type := mk {
  layout : SimTomLayout.State;
  panel : LeftControlPanel.State;
  viewer : ScoutViewer.State }.

Definition init : State :=
  mk SimTomLayout.init LeftControlPanel.init ScoutViewer.init.

Definition caseId (a : State) : string := SimTomLayout.caseId (layout a).
Definition isPlanningActive (a : State) : bool :=
  SimTomLayout.isPlanningActive (layout a).
Definition scoutCompleted (a : State) : bool :=
  SimTomLayout.scoutCompleted (layout a).
Definition planningCompleted (a : State) : bool :=
  LeftControlPanel.planningCompleted (panel a).
Definition scanning (a : State) : bool :=
  LeftControlPanel.isScanning (layout a).
Definition planningData (a : State) : PlanningData.t :=
  SimTomLayout.planningData (layout a).
Definition planning (a : State) : PlanningLines.t :=
  ScoutViewer.planning (viewer a).

Definition canStartPlanning (a : State) : bool :=
  LeftControlPanel.canStartPlanning (layout a) (panel a).
Definition canEndPlanning (a : State) : bool :=
  LeftControlPanel.canEndPlanning (layout a).
Definition canEditRecon (a : State) : bool :=
  LeftControlPanel.canEditRecon (layout a) (panel a).
Definition canStartScan (a : State) : bool :=
  LeftControlPanel.canStartScan (layout a) (panel a).

(** A panel handler lifted to the application. *)
Definition onPanel
    (h : SimTomLayout.State * LeftControlPanel.State ->
         SimTomLayout.State * LeftControlPanel.State) (a : State) : State :=
  let lp := h (layout a, panel a) in
  mk (fst lp) (snd lp) (viewer a).

(** The viewer's notification effect (dependencies [planning],
    [scoutSize]): it is run where one of the two has been set, and calls
    [onPlanningDataReady = setPlanningData] when there is a scout size. *)
Definition notifyPlanning (a : State) : State :=
  match ScoutViewer.planningDataOf (viewer a) with
  | Some d => mk (SimTomLayout.setPlanningData d (layout a)) (panel a)
                 (viewer a)
  | None => a
  end.

(** The effects on [caseId]: the panel resets [planningCompleted], the
    viewer clears the scout when the new identifier is empty. *)
Definition caseEffects (old new : State) : State :=
  if String.eqb (caseId old) (caseId new) then new
  else
    mk (layout new) (LeftControlPanel.mk false)
       (ScoutViewer.clearOnCaseChange (caseId new) (viewer new)).

(** The viewer's reload effect (dependencies [refreshToken], [caseId]):
    [loadScout] runs when the token is positive and there is a case;
    [scout] is what the scout source answers. *)
Definition refreshEffect (old : State) (scout : ScoutOutcome) (new : State)
  : State :=
  let depsChanged :=
    negb (Z.eqb (SimTomLayout.scoutRefreshToken (layout old))
                (SimTomLayout.scoutRefreshToken (layout new)))
    || negb (String.eqb (caseId old) (caseId new)) in
  if depsChanged
     && Z.ltb 0 (SimTomLayout.scoutRefreshToken (layout new))
     && negb (String.eqb (caseId new) EmptyString)
  then
    let loaded :=
      mk (layout new) (panel new) (ScoutViewer.loadScout (viewer new) scout)
    in
    match scout with
    | Loaded _ _ => notifyPlanning loaded
    | _ => loaded
    end
  else new.

(** *** The handlers with the effects they trigger *)

Definition scoutScan (now : Z) (scout : ScoutOutcome) (a : State) : State :=
  refreshEffect a scout (onPanel (LeftControlPanel.handleScoutScan now) a).

Definition startPlanning (a : State) : State :=
  onPanel LeftControlPanel.handleStartPlanning a.

Definition endPlanning (save : CallOutcome) (now : Z) (scout : ScoutOutcome)
    (a : State) : State :=
  refreshEffect a scout
    (onPanel (LeftControlPanel.handleEndPlanning save now) a).

Definition startScan (recon : CallOutcome) (a : State) : State :=
  onPanel (LeftControlPanel.handleStartScan recon) a.

Definition stopScan (a : State) : State :=
  onPanel LeftControlPanel.handleStopScan a.

Definition stopCt (stop : CallOutcome) (a : State) : State :=
  onPanel (LeftControlPanel.handleStopCt stop) a.

(** [handleCaseChange] sets the token to 0, so the reload effect does not
    load; only the effects on [caseId] remain. *)
Definition caseChange (newCaseId : string) (a : State) : State :=
  caseEffects a
    (mk (SimTomLayout.handleCaseChange newCaseId (layout a)) (panel a)
        (viewer a)).

Definition scanComplete (a : State) : State :=
  mk (SimTomLayout.onScanComplete (layout a)) (panel a) (viewer a).

Definition mouseDown (target : DragTarget) (e : MouseEvent.t) (a : State)
  : State :=
  mk (layout a) (panel a)
     (ScoutViewer.handleMouseDown (isPlanningActive a) (viewer a) e target).

Definition mouseMove (rect : DOMRect.t) (e : MouseEvent.t) (a : State)
  : State :=
  match ScoutViewer.handleMouseMove (viewer a) rect e with
  | Some v => notifyPlanning (mk (layout a) (panel a) v)
  | None => a
  end.

Definition mouseUp (a : State) : State :=
  mk (layout a) (panel a) (ScoutViewer.handleMouseUp (viewer a)).

(** *** What the operator can do

    A click reaches its handler only if the button is not [disabled]; the
    drag handles exist only while the overlay is rendered. *)
Inductive Event : Type :=
| ClickScoutScan (now : Z) (scout : ScoutOutcome)
| ClickStartPlanning
| ClickEndPlanning (save : CallOutcome) (now : Z) (scout : ScoutOutcome)
| ClickScanButton (recon : CallOutcome)
| ClickStop (stop : CallOutcome)
| SelectCase (newCaseId : string)
| ScanComplete
| MouseDown (target : DragTarget) (e : MouseEvent.t)
| MouseMove (rect : DOMRect.t) (e : MouseEvent.t)
| MouseUp.

Definition overlayShown (a : State) : bool :=
  isPlanningActive a
  && match ScoutViewer.scoutSize (viewer a) with
     | Some _ => true
     | None => false
     end.

Definition step (a : State) (ev : Event) : State :=
  match ev with
  | ClickScoutScan now scout =>
      if scanning a then a else scoutScan now scout a
  | ClickStartPlanning =>
      if canStartPlanning a then startPlanning a else a
  | ClickEndPlanning save now scout =>
      if canEndPlanning a then endPlanning save now scout a else a
  | ClickScanButton recon =>
      if scanning a then stopScan a
      else if canStartScan a then startScan recon a
      else a
  | ClickStop stop => stopCt stop a
  | SelectCase newCaseId => caseChange newCaseId a
  | ScanComplete => scanComplete a
  | MouseDown target e =>
      if overlayShown a then mouseDown target e a else a
  | MouseMove rect e => mouseMove rect e a
  | MouseUp => mouseUp a
  end.

Definition run (a : State) (tr : list Event) : State :=
  fold_left step tr a.

End App.

(** * Properties *)

(** ** Arithmetic of the clamps *)

Ltac clamp_name_max a b :=
  let m := fresh "m" in
  let Hm := fresh "Hm" in
  pose proof (Q.max_spec a b) as Hm;
  set (m := Qmax a b) in *; clearbody m.

Ltac clamp_name_min a b :=
  let m := fresh "m" in
  let Hm := fresh "Hm" in
  pose proof (Q.min_spec a b) as Hm;
  set (m := Qmin a b) in *; clearbody m.

Ltac clamp_cases :=
  unfold Math_max, Math_min in *;
  repeat match goal with
    | |- context [Qmax ?a ?b] => clamp_name_max a b
    | |- context [Qmin ?a ?b] => clamp_name_min a b
    | _ : context [Qmax ?a ?b] |- _ => clamp_name_max a b
    | _ : context [Qmin ?a ?b] |- _ => clamp_name_min a b
    end.

Ltac clamp_lra := clamp_cases; lra.

Lemma clamp_low (lo x hi : Q) :
  lo <= Math_max lo (Math_min x hi).
Proof. clamp_lra. Qed.

Lemma clamp_high (lo x hi : Q) :
  lo <= hi -> Math_max lo (Math_min x hi) <= hi.
Proof. intros; clamp_lra. Qed.

Lemma clamp_id (lo x hi : Q) :
  lo <= x -> x <= hi -> Math_max lo (Math_min x hi) == x.
Proof. intros; clamp_lra. Qed.

Lemma clamp_top_id (lo x hi : Q) :
  lo <= x -> x <= hi -> Math_min hi (Math_max x lo) == x.
Proof. intros; clamp_lra. Qed.

(** ** The planning geometry *)

Section Geometry.

Import ScoutViewer.

(** The ordering of the two lines in a frame of height [H]. *)
Definition linesValid (H : Q) (p : PlanningLines.t) : Prop :=
  0 <= PlanningLines.startY p
  /\ PlanningLines.startY p <= PlanningLines.endY p - 20
  /\ PlanningLines.endY p - 20 <= H - 20.

(** The FOV's vertical extent mirrors the z-range. *)
Definition ySynced (p : PlanningLines.t) : Prop :=
  FOV.y_min (PlanningLines.fov p) == PlanningLines.startY p
  /\ FOV.y_max (PlanningLines.fov p) == PlanningLines.endY p.

(** Two plannings with the same values. *)
Definition planning_eq (p q : PlanningLines.t) : Prop :=
  PlanningLines.startY p == PlanningLines.startY q
  /\ PlanningLines.endY p == PlanningLines.endY q
  /\ FOV.x_min (PlanningLines.fov p) == FOV.x_min (PlanningLines.fov q)
  /\ FOV.x_max (PlanningLines.fov p) == FOV.x_max (PlanningLines.fov q)
  /\ FOV.y_min (PlanningLines.fov p) == FOV.y_min (PlanningLines.fov q)
  /\ FOV.y_max (PlanningLines.fov p) == FOV.y_max (PlanningLines.fov q).

(** What a move event makes of the planning, handle by handle. *)
Lemma handleMouseMove_start v rect e size :
  dragging v = Some Drag_start -> scoutSize v = Some size ->
  handleMouseMove v rect e =
    let p := planning v in
    let newStartY :=
      Math_max 0
        (Math_min (DragStart.startY (dragStartRef v)
                   + (MouseEvent.clientY e - DragStart.y (dragStartRef v))
                     * (Size.height size / DOMRect.height rect))
                  (PlanningLines.endY p - 20)) in
    Some (setPlanning v
            (PlanningLines.mk newStartY (PlanningLines.endY p)
               (FOV.mk (FOV.x_min (PlanningLines.fov p))
                       (FOV.x_max (PlanningLines.fov p))
                       newStartY
                       (FOV.y_max (PlanningLines.fov p))))).
Proof.
  intros Hd Hs. unfold handleMouseMove. rewrite Hd, Hs. reflexivity.
Qed.

Lemma handleMouseMove_end v rect e size :
  dragging v = Some Drag_end -> scoutSize v = Some size ->
  handleMouseMove v rect e =
    let p := planning v in
    let newEndY :=
      Math_min (Size.height size)
        (Math_max (DragStart.endY (dragStartRef v)
                   + (MouseEvent.clientY e - DragStart.y (dragStartRef v))
                     * (Size.height size / DOMRect.height rect))
                  (PlanningLines.startY p + 20)) in
    Some (setPlanning v
            (PlanningLines.mk (PlanningLines.startY p) newEndY
               (FOV.mk (FOV.x_min (PlanningLines.fov p))
                       (FOV.x_max (PlanningLines.fov p))
                       (FOV.y_min (PlanningLines.fov p))
                       newEndY))).
Proof.
  intros Hd Hs. unfold handleMouseMove. rewrite Hd, Hs. reflexivity.
Qed.

End Geometry.

(** C4 (as amended).  The clamp of a line move only corrects the line that
    is moved.  After a start-line move the lines are ordered inside the frame
    ([0 <= startY <= endY - 20 <= frameHeight - 20]) exactly when the end
    line, which the move leaves alone, satisfies [20 <= endY <= frameHeight];
    after an end-line move, exactly when the start line satisfies
    [0 <= startY <= frameHeight - 20].  In particular both moves preserve the
    ordering, whatever the raw pointer position. *)
Theorem line_moves_keep_lines_valid :
  forall v rect e size v',
    ScoutViewer.scoutSize v = Some size ->
    ScoutViewer.handleMouseMove v rect e = Some v' ->
    let p := ScoutViewer.planning v in
    let p' := ScoutViewer.planning v' in
    let H := Size.height size in
    (ScoutViewer.dragging v = Some Drag_start ->
       (linesValid H p' <->
        20 <= PlanningLines.endY p /\ PlanningLines.endY p <= H))
    /\ (ScoutViewer.dragging v = Some Drag_end ->
       (linesValid H p' <->
        0 <= PlanningLines.startY p /\ PlanningLines.startY p <= H - 20))
    /\ (ScoutViewer.dragging v = Some Drag_start
        \/ ScoutViewer.dragging v = Some Drag_end ->
        linesValid H p -> linesValid H p').
Proof.
  intros v rect e size v' Hs Hm p p' H.
  assert (Hstart : ScoutViewer.dragging v = Some Drag_start ->
            (linesValid H p' <->
             20 <= PlanningLines.endY p /\ PlanningLines.endY p <= H)).
  { intros Hd. rewrite (handleMouseMove_start v rect e size Hd Hs) in Hm.
    injection Hm as Hv. subst p'. rewrite <- Hv. unfold linesValid. simpl.
    fold p. fold H. split.
    - intros (H0 & H1 & H2). revert H0 H1 H2. clamp_cases. lra.
    - intros (H0 & H1). clamp_cases. lra. }
  assert (Hend : ScoutViewer.dragging v = Some Drag_end ->
            (linesValid H p' <->
             0 <= PlanningLines.startY p
             /\ PlanningLines.startY p <= H - 20)).
  { intros Hd. rewrite (handleMouseMove_end v rect e size Hd Hs) in Hm.
    injection Hm as Hv. subst p'. rewrite <- Hv. unfold linesValid. simpl.
    fold p. fold H. split.
    - intros (H0 & H1 & H2). revert H0 H1 H2. clamp_cases. lra.
    - intros (H0 & H1). clamp_cases. lra. }
  split; [exact Hstart|]. split; [exact Hend|].
  intros [Hd | Hd] (H0 & H1 & H2).
  - apply (Hstart Hd). lra.
  - apply (Hend Hd). lra.
Qed.

(** ** Scenarios used below *)

Module Scenario.
Import App.

(** The container shows the image at its own size, from the origin. *)
Definition rect (w h : Q) : DOMRect.t := DOMRect.mk 0 0 w h.

Definition at_ (x y : Q) : MouseEvent.t := MouseEvent.mk x y.

(** Case [A] is selected, a scout of [cols] x [rows] pixels is loaded and
    planning is started. *)
Definition planningOn (cols rows : Q) : State :=
  run init [SelectCase "A"; ClickScoutScan 5%Z (Loaded cols rows);
            ClickStartPlanning].

(** A whole drag: press on [target] at [down], move to [move], release. *)
Definition gesture (target : DragTarget) (down : MouseEvent.t)
    (r : DOMRect.t) (move : MouseEvent.t) : list Event :=
  [MouseDown target down; MouseMove r move; MouseUp].

(** The viewer while the start line of the default 800 x 1000 planning is
    held at display height 200. *)
Definition holdingStart : ScoutViewer.State :=
  viewer (run (planningOn 800 1000) [MouseDown Drag_start (at_ 0 200)]).

Definition holdingEnd : ScoutViewer.State :=
  viewer (run (planningOn 800 1000) [MouseDown Drag_end (at_ 0 800)]).

Definition moved (v : ScoutViewer.State) (r : DOMRect.t)
    (e : MouseEvent.t) : ScoutViewer.State :=
  match ScoutViewer.handleMouseMove v r e with
  | Some v' => v'
  | None => v
  end.
End Scenario.

Ltac qcompute :=
  vm_compute;
  repeat match goal with
    | |- _ /\ _ => split
    | |- _ = _ => reflexivity
    | |- _ -> False => let H := fresh in intro H; discriminate H
    end.

(** The theorem above at work: the start line of the default planning of an
    800 x 1000 scout is dragged down to 900. *)
Lemma line_moves_keep_lines_valid_witness :
  linesValid 1000
    (ScoutViewer.planning
       (Scenario.moved Scenario.holdingStart (Scenario.rect 800 1000)
          (Scenario.at_ 0 900))).
Proof.
  refine (proj2 (proj2 (line_moves_keep_lines_valid
            Scenario.holdingStart (Scenario.rect 800 1000)
            (Scenario.at_ 0 900) (Size.mk 800 1000) _ eq_refl eq_refl))
            (or_introl eq_refl) _).
  qcompute.
Defined.

(** C4 as stated fails: on a scout of 20 x 20 pixels the default lines are 4
    and 16; a start-line move leaves [endY = 16] alone and yields
    [startY = 0], which is not below [endY - 20]. *)
Lemma clampLines_counterexample :
  ~ linesValid 20
      (App.planning
         (App.run (Scenario.planningOn 20 20)
            [App.MouseDown Drag_start (Scenario.at_ 0 4);
             App.MouseMove (Scenario.rect 20 20) (Scenario.at_ 0 4)])).
Proof.
  vm_compute. intros (_ & H & _). apply H. reflexivity.
Qed.

(** C5.  The default planning of an 800 x 1000 scout is [startY = 200],
    [endY = 800], [fov = (160, 640, 200, 800)]; from it, an end-line drag
    whose raw position (anchor plus scaled delta) is 190 yields [endY = 220],
    that is [startY + 20], and the FOV's lower edge follows. *)
Theorem default_planning_and_end_clamp_800x1000 :
  ScoutViewer.defaultPlanning 800 1000
  = PlanningLines.mk 200 800 (FOV.mk 160 640 200 800)
  /\ forall v rect e v',
       ScoutViewer.planning v = ScoutViewer.defaultPlanning 800 1000 ->
       ScoutViewer.scoutSize v = Some (Size.mk 800 1000) ->
       ScoutViewer.dragging v = Some Drag_end ->
       DragStart.endY (ScoutViewer.dragStartRef v)
       + (MouseEvent.clientY e - DragStart.y (ScoutViewer.dragStartRef v))
         * (1000 / DOMRect.height rect) == 190 ->
       ScoutViewer.handleMouseMove v rect e = Some v' ->
       PlanningLines.endY (ScoutViewer.planning v') == 220
       /\ FOV.y_max (PlanningLines.fov (ScoutViewer.planning v')) == 220
       /\ PlanningLines.startY (ScoutViewer.planning v') = 200
       /\ FOV.y_min (PlanningLines.fov (ScoutViewer.planning v')) = 200.
Proof.
  split; [reflexivity|].
  intros v rect e v' Hp Hs Hd Hraw Hm.
  rewrite (handleMouseMove_end v rect e _ Hd Hs) in Hm.
  injection Hm as Hv. rewrite <- Hv. simpl. rewrite Hp. simpl.
  change (Math_round (1000 * 0.2)) with 200.
  repeat split; revert Hraw; clamp_cases; lra.
Qed.

Lemma default_planning_and_end_clamp_800x1000_witness :
  App.planning (Scenario.planningOn 800 1000)
  = PlanningLines.mk 200 800 (FOV.mk 160 640 200 800)
  /\ PlanningLines.endY
       (ScoutViewer.planning
          (Scenario.moved Scenario.holdingEnd (Scenario.rect 800 1000)
             (Scenario.at_ 0 190))) == 220.
Proof.
  split; [reflexivity|].
  refine (proj1 (proj2 default_planning_and_end_clamp_800x1000
            Scenario.holdingEnd (Scenario.rect 800 1000)
            (Scenario.at_ 0 190) _ eq_refl eq_refl eq_refl _ eq_refl)).
  reflexivity.
Defined.

(** ** Line moves as functions of the raw position *)

Section LineMoves.

Import ScoutViewer.

(** The raw position of a dragged line: its value at pointer-down plus the
    vertical pointer displacement scaled from display to image pixels. *)
Definition rawY (anchorValue : Q) (down : MouseEvent.t) (r : DOMRect.t)
    (move : MouseEvent.t) (size : Size.t) : Q :=
  anchorValue
  + (MouseEvent.clientY move - MouseEvent.clientY down)
    * (Size.height size / DOMRect.height r).

(** The [start] branch of [handleMouseMove] on the raw position [raw]. *)
Definition moveStartLine (raw : Q) (p : PlanningLines.t) : PlanningLines.t :=
  let newStartY := Math_max 0 (Math_min raw (PlanningLines.endY p - 20)) in
  PlanningLines.mk newStartY (PlanningLines.endY p)
    (FOV.mk (FOV.x_min (PlanningLines.fov p)) (FOV.x_max (PlanningLines.fov p))
            newStartY (FOV.y_max (PlanningLines.fov p))).

(** The [end] branch of [handleMouseMove] on the raw position [raw], in a
    frame of height [H]. *)
Definition moveEndLine (H raw : Q) (p : PlanningLines.t) : PlanningLines.t :=
  let newEndY := Math_min H (Math_max raw (PlanningLines.startY p + 20)) in
  PlanningLines.mk (PlanningLines.startY p) newEndY
    (FOV.mk (FOV.x_min (PlanningLines.fov p)) (FOV.x_max (PlanningLines.fov p))
            (FOV.y_min (PlanningLines.fov p)) newEndY).

Lemma overlayShown_active a :
  App.overlayShown a = true -> App.isPlanningActive a = true.
Proof.
  unfold App.overlayShown. intros H. apply andb_prop in H. tauto.
Qed.

Lemma run_app a t1 t2 : App.run a (t1 ++ t2) = App.run (App.run a t1) t2.
Proof. apply fold_left_app. Qed.

Lemma run_gesture_start a down r move size :
  App.overlayShown a = true ->
  scoutSize (App.viewer a) = Some size ->
  let a' := App.run a (Scenario.gesture Drag_start down r move) in
  App.planning a'
  = moveStartLine
      (rawY (PlanningLines.startY (App.planning a)) down r move size)
      (App.planning a)
  /\ App.overlayShown a' = true
  /\ scoutSize (App.viewer a') = Some size.
Proof.
  intros Ho Hs. pose proof (overlayShown_active a Ho) as Ha.
  unfold Scenario.gesture, App.run. simpl fold_left. rewrite Ho.
  unfold App.mouseDown, handleMouseDown. rewrite Ha. simpl negb. cbv iota.
  unfold App.mouseMove.
  erewrite handleMouseMove_start by (simpl; eauto).
  unfold App.notifyPlanning, planningDataOf. simpl. rewrite Hs.
  unfold App.overlayShown, App.isPlanningActive, App.planning. simpl.
  rewrite ?Hs. fold (App.isPlanningActive a). rewrite Ha.
  repeat split.
Qed.

Lemma run_gesture_end a down r move size :
  App.overlayShown a = true ->
  scoutSize (App.viewer a) = Some size ->
  let a' := App.run a (Scenario.gesture Drag_end down r move) in
  App.planning a'
  = moveEndLine (Size.height size)
      (rawY (PlanningLines.endY (App.planning a)) down r move size)
      (App.planning a)
  /\ App.overlayShown a' = true
  /\ scoutSize (App.viewer a') = Some size.
Proof.
  intros Ho Hs. pose proof (overlayShown_active a Ho) as Ha.
  unfold Scenario.gesture, App.run. simpl fold_left. rewrite Ho.
  unfold App.mouseDown, handleMouseDown. rewrite Ha. simpl negb. cbv iota.
  unfold App.mouseMove.
  erewrite handleMouseMove_end by (simpl; eauto).
  unfold App.notifyPlanning, planningDataOf. simpl. rewrite Hs.
  unfold App.overlayShown, App.isPlanningActive, App.planning. simpl.
  rewrite ?Hs. fold (App.isPlanningActive a). rewrite Ha.
  repeat split.
Qed.

End LineMoves.

(** C6 (as amended).  From a planning whose start line is not above the
    frame and whose end line is not below it ([0 <= startY], [endY <=
    frameHeight]), a start-line drag and an end-line drag commute whenever
    neither raw position is clamped against the other line in either order:
    the raw start position is 20 pixels above both the current end line and
    the raw end position, and the raw end position is 20 pixels below the
    current start line.  The raw positions themselves may lie outside the
    frame: both orders end with [startY = max(0, rawStart)], [endY =
    min(frameHeight, rawEnd)] and the same FOV. *)
Theorem line_drags_commute_when_unclamped :
  forall a size ds rs ms de re me,
    App.overlayShown a = true ->
    ScoutViewer.scoutSize (App.viewer a) = Some size ->
    let p := App.planning a in
    let rawS := rawY (PlanningLines.startY p) ds rs ms size in
    let rawE := rawY (PlanningLines.endY p) de re me size in
    0 <= PlanningLines.startY p ->
    PlanningLines.endY p <= Size.height size ->
    rawS + 20 <= PlanningLines.endY p ->
    PlanningLines.startY p + 20 <= rawE ->
    rawS + 20 <= rawE ->
    let gs := Scenario.gesture Drag_start ds rs ms in
    let ge := Scenario.gesture Drag_end de re me in
    planning_eq (App.planning (App.run a (gs ++ ge)))
                (App.planning (App.run a (ge ++ gs)))
    /\ PlanningLines.startY (App.planning (App.run a (gs ++ ge)))
       == Math_max 0 rawS
    /\ PlanningLines.endY (App.planning (App.run a (gs ++ ge)))
       == Math_min (Size.height size) rawE.
Proof.
  intros a size ds rs ms de re me Ho Hs p rawS rawE H0 H1 H2 H3 H4 gs ge.
  rewrite !run_app.
  destruct (run_gesture_start a ds rs ms size Ho Hs) as (Es & Os & Ss).
  destruct (run_gesture_end a de re me size Ho Hs) as (Ee & Oe & Se).
  destruct (run_gesture_end _ de re me size Os Ss) as (Ese & _).
  destruct (run_gesture_start _ ds rs ms size Oe Se) as (Ees & _).
  fold gs in Es, Ese. fold ge in Ee, Ees. fold gs in Ees. fold ge in Ese.
  rewrite Ese, Ees, Es, Ee. fold p. fold rawS. fold rawE.
  unfold planning_eq, moveStartLine, moveEndLine. simpl.
  unfold rawY. simpl. fold (rawY (PlanningLines.startY p) ds rs ms size).
  fold (rawY (PlanningLines.endY p) de re me size). fold rawS. fold rawE.
  clearbody rawS rawE.
  repeat split; try reflexivity; clamp_cases; lra.
Qed.

(** The theorem at work on raw positions outside the frame: the start line
    is dragged to -50 and the end line to 1200 in a frame of height 1000. *)
Lemma line_drags_commute_when_unclamped_witness :
  let gs := Scenario.gesture Drag_start (Scenario.at_ 0 200)
              (Scenario.rect 800 1000) (Scenario.at_ 0 (-50)) in
  let ge := Scenario.gesture Drag_end (Scenario.at_ 0 800)
              (Scenario.rect 800 1000) (Scenario.at_ 0 1200) in
  planning_eq (App.planning (App.run (Scenario.planningOn 800 1000) (gs ++ ge)))
              (App.planning (App.run (Scenario.planningOn 800 1000) (ge ++ gs))).
Proof.
  refine (proj1 (line_drags_commute_when_unclamped
            (Scenario.planningOn 800 1000) (Size.mk 800 1000)
            (Scenario.at_ 0 200) (Scenario.rect 800 1000)
            (Scenario.at_ 0 (-50))
            (Scenario.at_ 0 800) (Scenario.rect 800 1000)
            (Scenario.at_ 0 1200)
            eq_refl eq_refl _ _ _ _ _)); qcompute.
Defined.

(** C6 as stated fails: from the default planning of an 800 x 1000 scout
    (lines at 200 and 800), dragging the start line to the raw position 900
    and the end line to the raw position 950 ends with [startY = 780] when the
    start line goes first (it is stopped 20 pixels above the old end line) and
    with [startY = 900] when the end line goes first. *)
Lemma line_drags_commute_counterexample :
  let gs := Scenario.gesture Drag_start (Scenario.at_ 0 200)
              (Scenario.rect 800 1000) (Scenario.at_ 0 900) in
  let ge := Scenario.gesture Drag_end (Scenario.at_ 0 800)
              (Scenario.rect 800 1000) (Scenario.at_ 0 950) in
  let p1 := App.planning (App.run (Scenario.planningOn 800 1000) (gs ++ ge)) in
  let p2 := App.planning (App.run (Scenario.planningOn 800 1000) (ge ++ gs)) in
  PlanningLines.startY p1 == 780
  /\ PlanningLines.startY p2 == 900
  /\ ~ planning_eq p1 p2.
Proof.
  vm_compute. repeat split; try reflexivity.
  intros (H & _). discriminate H.
Qed.

(** ** The FOV box and the lines *)

(** The line moves and the four edge resizes keep the FOV's vertical extent
    on the lines. *)
Lemma y_sync_kept_by_lines_and_edges :
  forall v rect e v',
    ScoutViewer.handleMouseMove v rect e = Some v' ->
    ScoutViewer.dragging v <> Some Drag_fov ->
    ySynced (ScoutViewer.planning v) -> ySynced (ScoutViewer.planning v').
Proof.
  intros v rect e v' Hm Hd (Hlo & Hhi).
  unfold ScoutViewer.handleMouseMove in Hm.
  destruct (ScoutViewer.dragging v) as [target|]; [|discriminate].
  destruct (ScoutViewer.scoutSize v) as [size|]; [|discriminate].
  injection Hm as Hv. rewrite <- Hv.
  destruct target; try congruence; unfold ySynced; simpl; split;
    solve [reflexivity | assumption].
Qed.

(** The planning that [loadScout] installs has the FOV on the lines. *)
Lemma defaultPlanning_y_synced cols rows :
  ySynced (ScoutViewer.defaultPlanning cols rows).
Proof. split; reflexivity. Qed.

(** C8, the code at the failing input.  On the default planning of an
    800 x 1000 scout (lines at 200 and 800, FOV on the lines) the FOV box is
    grabbed at (200, 300) and a move event arrives at the same position.  The
    box is re-centred on the pointer: its vertical extent becomes 0..600
    while the lines stay at 200 and 800, so the FOV no longer mirrors the
    z-range. *)
Theorem fov_move_leaves_the_lines_behind :
  let a0 := Scenario.planningOn 800 1000 in
  let a1 := App.run a0 [App.MouseDown Drag_fov (Scenario.at_ 200 300);
                        App.MouseMove (Scenario.rect 800 1000)
                          (Scenario.at_ 200 300)] in
  ySynced (App.planning a0)
  /\ PlanningLines.startY (App.planning a1) == 200
  /\ PlanningLines.endY (App.planning a1) == 800
  /\ FOV.y_min (PlanningLines.fov (App.planning a1)) == 0
  /\ FOV.y_max (PlanningLines.fov (App.planning a1)) == 600
  /\ ~ ySynced (App.planning a1).
Proof.
  vm_compute. repeat split; try reflexivity.
  intros (H & _). discriminate H.
Qed.

(** After such a FOV move a start-line drag, clamped against the end line
    and not against the FOV's lower edge, can turn the box inside out. *)
Lemma start_drag_after_fov_move_inverts_fov :
  let a2 := App.run (Scenario.planningOn 800 1000)
              (Scenario.gesture Drag_fov (Scenario.at_ 200 300)
                 (Scenario.rect 800 1000) (Scenario.at_ 200 300)
               ++ Scenario.gesture Drag_start (Scenario.at_ 0 200)
                    (Scenario.rect 800 1000) (Scenario.at_ 0 700)) in
  FOV.y_min (PlanningLines.fov (App.planning a2)) == 700
  /\ FOV.y_max (PlanningLines.fov (App.planning a2)) == 600.
Proof. vm_compute. split; reflexivity. Qed.

(** ** Where the dragged value comes from *)

Section DragSource.

Import ScoutViewer.

(** The spec's words: the anchor value plus the display-scaled
    displacement of the pointer since pointer-down. *)
Definition anchorPlusDelta (anchorValue downPos movePos scale : Q) : Q :=
  anchorValue + (movePos - downPos) * scale.

(** The quantities a handle drags, and the rest of the planning. *)
Definition draggedBy (target : DragTarget) (p : PlanningLines.t) : list Q :=
  let f := PlanningLines.fov p in
  match target with
  | Drag_start | Drag_fov_top => [PlanningLines.startY p; FOV.y_min f]
  | Drag_end | Drag_fov_bottom => [PlanningLines.endY p; FOV.y_max f]
  | Drag_fov => [FOV.x_min f; FOV.x_max f; FOV.y_min f; FOV.y_max f]
  | Drag_fov_left => [FOV.x_min f]
  | Drag_fov_right => [FOV.x_max f]
  end.

Definition restFor (target : DragTarget) (p : PlanningLines.t) : list Q :=
  let f := PlanningLines.fov p in
  match target with
  | Drag_start | Drag_fov_top =>
      [PlanningLines.endY p; FOV.x_min f; FOV.x_max f; FOV.y_max f]
  | Drag_end | Drag_fov_bottom =>
      [PlanningLines.startY p; FOV.x_min f; FOV.x_max f; FOV.y_min f]
  | Drag_fov => [PlanningLines.startY p; PlanningLines.endY p]
  | Drag_fov_left =>
      [PlanningLines.startY p; PlanningLines.endY p;
       FOV.x_max f; FOV.y_min f; FOV.y_max f]
  | Drag_fov_right =>
      [PlanningLines.startY p; PlanningLines.endY p;
       FOV.x_min f; FOV.y_min f; FOV.y_max f]
  end.

Definition isEdge (target : DragTarget) : bool :=
  match target with
  | Drag_fov_top | Drag_fov_bottom | Drag_fov_left | Drag_fov_right => true
  | _ => false
  end.

End DragSource.

(** C9 (as amended).  On a pointer-move
    - the start and end lines take the clamp of the anchor value captured at
      pointer-down plus the display-scaled vertical displacement;
    - the FOV move places the box, with the width and height of the anchor,
      centred on the pointer's position in the image (then clamped);
    - the four FOV edges take the clamp of the pointer's position in the
      image, and do not depend on the anchor at all;
    - for every handle the new value of the dragged quantity does not depend
      on the live value of that quantity. *)
Theorem drag_values_from_anchor_or_pointer :
  (forall v rect e size v',
     ScoutViewer.scoutSize v = Some size ->
     ScoutViewer.handleMouseMove v rect e = Some v' ->
     let anchor := ScoutViewer.dragStartRef v in
     let p := ScoutViewer.planning v in
     let f := PlanningLines.fov p in
     let p' := ScoutViewer.planning v' in
     let f' := PlanningLines.fov p' in
     let scaleX := Size.width size / DOMRect.width rect in
     let scaleY := Size.height size / DOMRect.height rect in
     let raw anchorValue :=
       anchorPlusDelta anchorValue (DragStart.y anchor)
         (MouseEvent.clientY e) scaleY in
     let pointerX := (MouseEvent.clientX e - DOMRect.left rect) * scaleX in
     let pointerY := (MouseEvent.clientY e - DOMRect.top rect) * scaleY in
     let w := FOV.x_max (DragStart.fov anchor)
              - FOV.x_min (DragStart.fov anchor) in
     let h := FOV.y_max (DragStart.fov anchor)
              - FOV.y_min (DragStart.fov anchor) in
     (ScoutViewer.dragging v = Some Drag_start ->
        PlanningLines.startY p'
        = Math_max 0 (Math_min (raw (DragStart.startY anchor))
                               (PlanningLines.endY p - 20)))
     /\ (ScoutViewer.dragging v = Some Drag_end ->
        PlanningLines.endY p'
        = Math_min (Size.height size)
            (Math_max (raw (DragStart.endY anchor))
                      (PlanningLines.startY p + 20)))
     /\ (ScoutViewer.dragging v = Some Drag_fov ->
        FOV.x_min f'
        = Math_max 0 (Math_min (pointerX - w / 2) (Size.width size - w))
        /\ FOV.y_min f'
           = Math_max 0 (Math_min (pointerY - h / 2) (Size.height size - h))
        /\ FOV.x_max f' = FOV.x_min f' + w
        /\ FOV.y_max f' = FOV.y_min f' + h)
     /\ (ScoutViewer.dragging v = Some Drag_fov_left ->
        FOV.x_min f' = Math_max 0 (Math_min pointerX (FOV.x_max f - 20)))
     /\ (ScoutViewer.dragging v = Some Drag_fov_right ->
        FOV.x_max f'
        = Math_min (Size.width size) (Math_max pointerX (FOV.x_min f + 20)))
     /\ (ScoutViewer.dragging v = Some Drag_fov_top ->
        PlanningLines.startY p'
        = Math_max 0 (Math_min pointerY (FOV.y_max f - 20)))
     /\ (ScoutViewer.dragging v = Some Drag_fov_bottom ->
        PlanningLines.endY p'
        = Math_min (Size.height size)
            (Math_max pointerY (FOV.y_min f + 20))))
  /\ (forall target v1 v2 rect e v1' v2',
        isEdge target = true ->
        ScoutViewer.dragging v1 = Some target ->
        ScoutViewer.dragging v2 = Some target ->
        ScoutViewer.scoutSize v1 = ScoutViewer.scoutSize v2 ->
        ScoutViewer.planning v1 = ScoutViewer.planning v2 ->
        ScoutViewer.handleMouseMove v1 rect e = Some v1' ->
        ScoutViewer.handleMouseMove v2 rect e = Some v2' ->
        ScoutViewer.planning v1' = ScoutViewer.planning v2')
  /\ (forall target v1 v2 rect e v1' v2',
        ScoutViewer.dragging v1 = Some target ->
        ScoutViewer.dragging v2 = Some target ->
        ScoutViewer.scoutSize v1 = ScoutViewer.scoutSize v2 ->
        ScoutViewer.dragStartRef v1 = ScoutViewer.dragStartRef v2 ->
        restFor target (ScoutViewer.planning v1)
        = restFor target (ScoutViewer.planning v2) ->
        ScoutViewer.handleMouseMove v1 rect e = Some v1' ->
        ScoutViewer.handleMouseMove v2 rect e = Some v2' ->
        draggedBy target (ScoutViewer.planning v1')
        = draggedBy target (ScoutViewer.planning v2')).
Proof.
  split; [|split].
  - intros v rect e size v' Hs Hm. unfold ScoutViewer.handleMouseMove in Hm.
    rewrite Hs in Hm.
    destruct (ScoutViewer.dragging v) as [target|]; [|discriminate].
    injection Hm as Hv. rewrite <- Hv. cbv zeta.
    repeat match goal with |- _ /\ _ => split end;
      intros Hd; injection Hd as Ht; subst target;
      repeat match goal with |- _ /\ _ => split end; reflexivity.
  - intros target v1 v2 rect e v1' v2' He Hd1 Hd2 Hs Hp Hm1 Hm2.
    unfold ScoutViewer.handleMouseMove in Hm1, Hm2.
    rewrite Hd1 in Hm1. rewrite Hd2 in Hm2. rewrite <- Hs, <- Hp in Hm2.
    destruct (ScoutViewer.scoutSize v1) as [size|]; [|discriminate].
    injection Hm1 as Hv1. injection Hm2 as Hv2. rewrite <- Hv1, <- Hv2.
    destruct target; try discriminate He; reflexivity.
  - intros target v1 v2 rect e v1' v2' Hd1 Hd2 Hs Ha Hr Hm1 Hm2.
    unfold ScoutViewer.handleMouseMove in Hm1, Hm2.
    rewrite Hd1 in Hm1. rewrite Hd2 in Hm2. rewrite <- Hs, <- Ha in Hm2.
    destruct (ScoutViewer.scoutSize v1) as [size|]; [|discriminate].
    injection Hm1 as Hv1. injection Hm2 as Hv2. rewrite <- Hv1, <- Hv2.
    destruct target; simpl in Hr |- *; injection Hr as ?; congruence.
Qed.

(** The theorem at work: the left FOV edge ends under the pointer (image
    column 172), whatever was captured at pointer-down. *)
Lemma drag_values_from_anchor_or_pointer_witness :
  let v := ScoutViewer.handleMouseDown true
             (App.viewer (Scenario.planningOn 800 1000))
             (Scenario.at_ 162 500) Drag_fov_left in
  FOV.x_min
    (PlanningLines.fov
       (ScoutViewer.planning
          (Scenario.moved v (Scenario.rect 800 1000) (Scenario.at_ 172 500))))
  = Math_max 0 (Math_min ((172 - 0) * (800 / 800)) (640 - 20)).
Proof.
  intro v.
  exact (proj1 (proj2 (proj2 (proj2 (proj1 drag_values_from_anchor_or_pointer
           v (Scenario.rect 800 1000) (Scenario.at_ 172 500)
           (Size.mk 800 1000) _ eq_refl eq_refl)))) eq_refl).
Defined.

(** C9 as stated fails for the FOV handles.  On the default planning of an
    800 x 1000 scout shown at its own size (FOV columns 160..640):
    - the box is grabbed at (200, 300) and the pointer moves 10 pixels to the
      right; the anchor plus the delta is 170, a legal position, but the box
      jumps to column 0 (it is centred on the pointer);
    - the left edge is grabbed at column 162 and the pointer moves 10 pixels
      to the right; the anchor plus the delta is 170, the edge goes to 172. *)
Lemma drag_anchor_plus_delta_counterexample :
  let a0 := Scenario.planningOn 800 1000 in
  let r := Scenario.rect 800 1000 in
  let x0 := FOV.x_min (PlanningLines.fov (App.planning a0)) in
  let boxMoved :=
    App.run a0 [App.MouseDown Drag_fov (Scenario.at_ 200 300);
                App.MouseMove r (Scenario.at_ 210 300)] in
  let edgeMoved :=
    App.run a0 [App.MouseDown Drag_fov_left (Scenario.at_ 162 500);
                App.MouseMove r (Scenario.at_ 172 500)] in
  anchorPlusDelta x0 200 210 (800 / 800) == 170
  /\ anchorPlusDelta x0 162 172 (800 / 800) == 170
  /\ FOV.x_min (PlanningLines.fov (App.planning boxMoved)) == 0
  /\ FOV.x_min (PlanningLines.fov (App.planning edgeMoved)) == 172
  /\ ~ FOV.x_min (PlanningLines.fov (App.planning boxMoved))
       == anchorPlusDelta x0 200 210 (800 / 800)
  /\ ~ FOV.x_min (PlanningLines.fov (App.planning edgeMoved))
       == anchorPlusDelta x0 162 172 (800 / 800).
Proof.
  vm_compute. repeat split; try reflexivity; intro H; discriminate H.
Qed.

(** ** The workflow gate *)

Section GateFacts.

Import App.

(** The four facts the gate is computed from. *)
Definition facts (a : State) : bool * bool * bool * bool :=
  (scoutCompleted a, isPlanningActive a, planningCompleted a, scanning a).

Lemma notifyPlanning_facts a : facts (notifyPlanning a) = facts a.
Proof.
  unfold notifyPlanning.
  destruct (ScoutViewer.planningDataOf (viewer a)); reflexivity.
Qed.

Lemma notifyPlanning_caseId a : caseId (notifyPlanning a) = caseId a.
Proof.
  unfold notifyPlanning.
  destruct (ScoutViewer.planningDataOf (viewer a)); reflexivity.
Qed.

Lemma refreshEffect_facts old scout new :
  facts (refreshEffect old scout new) = facts new.
Proof.
  unfold refreshEffect.
  destruct (_ && _ && _); [|reflexivity].
  destruct scout; reflexivity.
Qed.

Lemma refreshEffect_caseId old scout new :
  caseId (refreshEffect old scout new) = caseId new.
Proof.
  unfold refreshEffect.
  destruct (_ && _ && _); [|reflexivity].
  destruct scout; reflexivity.
Qed.

Lemma mouseMove_facts r e a : facts (mouseMove r e a) = facts a.
Proof.
  unfold mouseMove.
  destruct (ScoutViewer.handleMouseMove (viewer a) r e); [|reflexivity].
  rewrite notifyPlanning_facts. reflexivity.
Qed.

Lemma scoutScan_facts now scout a :
  facts (scoutScan now scout a)
  = (true, isPlanningActive a, planningCompleted a, scanning a).
Proof. unfold scoutScan. rewrite refreshEffect_facts. reflexivity. Qed.

Lemma endPlanning_facts save now scout a :
  facts (endPlanning save now scout a)
  = (scoutCompleted a, false,
     if LeftControlPanel.wellFormed (planningData a)
     then match save with
          | Resolved => true
          | Rejected => planningCompleted a
          end
     else planningCompleted a,
     scanning a).
Proof.
  unfold endPlanning. rewrite refreshEffect_facts.
  unfold facts, onPanel, LeftControlPanel.handleEndPlanning, planningData,
    planningCompleted.
  simpl. destruct (LeftControlPanel.wellFormed _); [destruct save|];
    reflexivity.
Qed.

Lemma caseChange_facts id a :
  facts (caseChange id a)
  = (false, false,
     if String.eqb (caseId a) id then planningCompleted a else false,
     false).
Proof.
  unfold caseChange, caseEffects. simpl.
  change (caseId {| layout := SimTomLayout.handleCaseChange id (layout a);
                    panel := panel a; viewer := viewer a |}) with id.
  destruct (String.eqb (caseId a) id); reflexivity.
Qed.

(** What one event does to the facts. *)
Lemma step_facts a ev :
  facts (step a ev) =
  match ev with
  | ClickScoutScan _ _ =>
      if scanning a then facts a
      else (true, isPlanningActive a, planningCompleted a, false)
  | ClickStartPlanning =>
      if canStartPlanning a then (true, true, false, scanning a)
      else facts a
  | ClickEndPlanning save _ _ =>
      if isPlanningActive a then
        (scoutCompleted a, false,
         if LeftControlPanel.wellFormed (planningData a)
         then match save with
              | Resolved => true
              | Rejected => planningCompleted a
              end
         else planningCompleted a,
         scanning a)
      else facts a
  | ClickScanButton recon =>
      if scanning a
      then (scoutCompleted a, isPlanningActive a, planningCompleted a, false)
      else if planningCompleted a then
        (scoutCompleted a, isPlanningActive a, true,
         if String.eqb (caseId a) EmptyString then true
         else match recon with Resolved => true | Rejected => false end)
      else facts a
  | ClickStop stop =>
      (scoutCompleted a, isPlanningActive a, planningCompleted a,
       match stop with Resolved => false | Rejected => scanning a end)
  | SelectCase id =>
      (false, false,
       if String.eqb (caseId a) id then planningCompleted a else false,
       false)
  | ScanComplete =>
      (scoutCompleted a, isPlanningActive a, planningCompleted a, false)
  | MouseDown _ _ | MouseMove _ _ | MouseUp => facts a
  end.
Proof.
  destruct ev; simpl.
  - destruct (scanning a) eqn:Hs; [reflexivity|].
    rewrite scoutScan_facts, Hs. reflexivity.
  - destruct a as [[c t act sc d done] [pc] v].
    destruct done, act, pc; reflexivity.
  - unfold canEndPlanning, LeftControlPanel.canEndPlanning.
    fold (isPlanningActive a).
    destruct (isPlanningActive a); [|reflexivity].
    apply endPlanning_facts.
  - destruct a as [[c t act [sc cur tot] d done] [pc] v].
    unfold facts, scanning, canStartScan, LeftControlPanel.canStartScan,
      LeftControlPanel.isScanning, startScan, stopScan, onPanel,
      LeftControlPanel.handleStartScan, caseId.
    simpl. destruct sc, pc; simpl; try reflexivity.
    destruct (String.eqb c EmptyString); [|destruct recon]; reflexivity.
  - destruct stop; reflexivity.
  - apply caseChange_facts.
  - reflexivity.
  - destruct (overlayShown a); reflexivity.
  - apply mouseMove_facts.
  - reflexivity.
Qed.

End GateFacts.

Section Reachable.

Import App.

Lemma canStartPlanning_facts a :
  canStartPlanning a
  = scoutCompleted a && negb (isPlanningActive a)
    && negb (planningCompleted a).
Proof. reflexivity. Qed.

Lemma canStartScan_facts a :
  canStartScan a = planningCompleted a && negb (scanning a).
Proof. reflexivity. Qed.

Lemma run_cons a ev tr : run a (ev :: tr) = run (step a ev) tr.
Proof. reflexivity. Qed.

Lemma run_snoc a tr ev : run a (tr ++ [ev]) = step (run a tr) ev.
Proof. unfold run. rewrite fold_left_app. reflexivity. Qed.

(** What holds in every state the operator can reach: a scan runs only on
    a completed planning, and planning is active only on a completed scout
    and before it is completed. *)
Definition Inv (a : State) : Prop :=
  (scanning a = true -> planningCompleted a = true)
  /\ (isPlanningActive a = true ->
      planningCompleted a = false /\ scoutCompleted a = true).

Ltac split_cases H :=
  repeat match type of H with
    | context [if ?c then _ else _] => destruct c
    | context [match ?c with Resolved => _ | Rejected => _ end] =>
        destruct c
    end.

Ltac facts_split F E1 E2 E3 E4 :=
  apply pair_equal_spec in F as [F E4];
  apply pair_equal_spec in F as [F E3];
  apply pair_equal_spec in F as [E1 E2].

(** Case analysis on the four facts of [a], with [F] the equation of
    [step_facts]. *)
Ltac facts_cases a F :=
  unfold facts in F; rewrite canStartPlanning_facts in F; revert F;
  destruct (scoutCompleted a), (isPlanningActive a), (planningCompleted a),
    (scanning a); intros F.

Lemma Inv_init : Inv init.
Proof. split; intros H; discriminate H. Qed.

Lemma Inv_step a ev : Inv a -> Inv (step a ev).
Proof.
  intros [I1 I2]. pose proof (step_facts a ev) as F. unfold Inv.
  revert I1 I2. facts_cases a F; intros I1 I2;
    try (specialize (I1 eq_refl); discriminate I1);
    try (destruct (I2 eq_refl) as [I3 I4]; discriminate);
    destruct ev; cbv beta iota delta [andb negb] in F; split_cases F;
    facts_split F E1 E2 E3 E4;
    rewrite E1, E2, E3, E4; split; intros H;
    try discriminate H; auto.
Qed.

Lemma Inv_run a tr : Inv a -> Inv (run a tr).
Proof.
  revert a. induction tr as [|ev tr IH]; intros a Ha; [exact Ha|].
  rewrite run_cons. apply IH, Inv_step, Ha.
Qed.

(** Only an End Planning whose save resolves sets [planningCompleted]. *)
Definition isResolvedEnd (ev : Event) : bool :=
  match ev with
  | ClickEndPlanning Resolved _ _ => true
  | _ => false
  end.

Definition isSelectCase (ev : Event) : bool :=
  match ev with
  | SelectCase _ => true
  | _ => false
  end.

Definition isScoutScan (ev : Event) : bool :=
  match ev with
  | ClickScoutScan _ _ => true
  | _ => false
  end.

Lemma not_completed_step a ev :
  isResolvedEnd ev = false ->
  planningCompleted a = false -> planningCompleted (step a ev) = false.
Proof.
  intros He Hc. pose proof (step_facts a ev) as F. revert Hc.
  facts_cases a F; intros Hc; try discriminate Hc;
    destruct ev; try discriminate He;
    cbv beta iota delta [andb negb] in F; split_cases F;
    try discriminate He; facts_split F E1 E2 E3 E4; exact E3.
Qed.

Lemma not_completed_run a tr :
  existsb isResolvedEnd tr = false ->
  planningCompleted a = false -> planningCompleted (run a tr) = false.
Proof.
  revert a. induction tr as [|ev tr IH]; intros a He Hc; [exact Hc|].
  simpl in He. apply orb_false_elim in He as [He1 He2].
  rewrite run_cons. apply IH; [exact He2|].
  apply not_completed_step; assumption.
Qed.

Lemma completed_step a ev :
  isSelectCase ev = false ->
  planningCompleted a = true -> planningCompleted (step a ev) = true.
Proof.
  intros He Hc. pose proof (step_facts a ev) as F. revert Hc.
  facts_cases a F; intros Hc; try discriminate Hc;
    destruct ev; try discriminate He;
    cbv beta iota delta [andb negb] in F; split_cases F;
    facts_split F E1 E2 E3 E4; exact E3.
Qed.

Lemma completed_run a tr :
  existsb isSelectCase tr = false ->
  planningCompleted a = true -> planningCompleted (run a tr) = true.
Proof.
  revert a. induction tr as [|ev tr IH]; intros a He Hc; [exact Hc|].
  simpl in He. apply orb_false_elim in He as [He1 He2].
  rewrite run_cons. apply IH; [exact He2|].
  apply completed_step; assumption.
Qed.

Lemma not_scouted_step a ev :
  isScoutScan ev = false ->
  scoutCompleted a = false -> scoutCompleted (step a ev) = false.
Proof.
  intros He Hc. pose proof (step_facts a ev) as F. revert Hc.
  facts_cases a F; intros Hc; try discriminate Hc;
    destruct ev; try discriminate He;
    cbv beta iota delta [andb negb] in F; split_cases F;
    facts_split F E1 E2 E3 E4; exact E1.
Qed.

Lemma not_scouted_run a tr :
  existsb isScoutScan tr = false ->
  scoutCompleted a = false -> scoutCompleted (run a tr) = false.
Proof.
  revert a. induction tr as [|ev tr IH]; intros a He Hc; [exact Hc|].
  simpl in He. apply orb_false_elim in He as [He1 He2].
  rewrite run_cons. apply IH; [exact He2|].
  apply not_scouted_step; assumption.
Qed.

End Reachable.

(** C1.  From the initial state, whatever the operator does,
    - [canStartScan] is false as long as no End Planning click with a
      resolving save has occurred (in particular before any End Planning);
    - an End Planning click taken while planning is active makes it true
      exactly when the save resolves and the planning data is well-formed
      (both z bounds present);
    - it is false in every state where a scan is running, and Start Scan
      turns it from true to false by setting [isScanning]. *)
Theorem canStartScan_lifecycle :
  (forall tr,
     existsb isResolvedEnd tr = false ->
     App.canStartScan (App.run App.init tr) = false)
  /\ (forall tr save now scout,
        let a := App.run App.init tr in
        App.canEndPlanning a = true ->
        App.canStartScan (App.step a (App.ClickEndPlanning save now scout))
        = match save with
          | Resolved => LeftControlPanel.wellFormed (App.planningData a)
          | Rejected => false
          end)
  /\ (forall a, App.scanning a = true -> App.canStartScan a = false)
  /\ (forall tr recon,
        let a := App.run App.init tr in
        App.canStartScan a = true ->
        recon = Resolved \/ App.caseId a = EmptyString ->
        App.scanning (App.step a (App.ClickScanButton recon)) = true
        /\ App.canStartScan (App.step a (App.ClickScanButton recon)) = false).
Proof.
  split; [|split; [|split]].
  - intros tr Htr. rewrite canStartScan_facts.
    rewrite (not_completed_run App.init tr Htr eq_refl). reflexivity.
  - intros tr save now scout a Hact.
    destruct (Inv_run App.init tr Inv_init) as [I1 I2]. fold a in I1, I2.
    change (App.isPlanningActive a = true) in Hact.
    destruct (I2 Hact) as [Hc _].
    pose proof (step_facts a (App.ClickEndPlanning save now scout)) as F.
    cbv beta iota in F. rewrite Hact, Hc in F.
    unfold facts in F.
    apply pair_equal_spec in F as [F E4].
    apply pair_equal_spec in F as [_ E3].
    rewrite canStartScan_facts, E3, E4.
    destruct (App.scanning a).
    + specialize (I1 eq_refl). congruence.
    + destruct (LeftControlPanel.wellFormed _), save; reflexivity.
  - intros a Hs. rewrite canStartScan_facts, Hs. apply andb_false_r.
  - intros tr recon a Hcan Hrecon.
    rewrite canStartScan_facts in Hcan. apply andb_prop in Hcan as [Hc Hs].
    apply negb_true_iff in Hs.
    pose proof (step_facts a (App.ClickScanButton recon)) as F.
    cbv beta iota in F. rewrite Hs, Hc in F.
    unfold facts in F.
    apply pair_equal_spec in F as [F E4].
    apply pair_equal_spec in F as [_ E3].
    rewrite canStartScan_facts, E3, E4.
    destruct Hrecon as [-> | ->].
    + destruct (String.eqb _ _); split; reflexivity.
    + split; reflexivity.
Qed.

Lemma canStartScan_lifecycle_witness :
  App.canStartScan
    (App.step (Scenario.planningOn 800 1000)
       (App.ClickEndPlanning Resolved 7%Z (Loaded 800 1000))) = true.
Proof.
  exact (proj1 (proj2 canStartScan_lifecycle)
           [App.SelectCase "A"; App.ClickScoutScan 5%Z (Loaded 800 1000);
            App.ClickStartPlanning]
           Resolved 7%Z (Loaded 800 1000) eq_refl).
Defined.

(** C2.  End Planning deactivates planning whatever the save does, and
    [planningCompleted] becomes true only through a resolving save (of a
    well-formed planning data), which always sets it.  A rejected
    [applyReconstruction] leaves the whole state, and so [scanning],
    unchanged.  After either failure the operator can try again: Start Scan
    is still enabled, and Start Planning is enabled again. *)
Theorem collaborator_failure_keeps_gate_retryable :
  (forall a save now scout,
     App.isPlanningActive (App.endPlanning save now scout a) = false)
  /\ (forall a save now scout,
        App.planningCompleted (App.endPlanning save now scout a) = true ->
        App.planningCompleted a = true
        \/ (save = Resolved
            /\ LeftControlPanel.wellFormed (App.planningData a) = true))
  /\ (forall a now scout,
        LeftControlPanel.wellFormed (App.planningData a) = true ->
        App.planningCompleted (App.endPlanning Resolved now scout a) = true)
  /\ (forall a,
        App.caseId a <> EmptyString -> App.startScan Rejected a = a)
  /\ (forall tr now scout,
        let a := App.run App.init tr in
        App.canEndPlanning a = true ->
        App.canStartPlanning
          (App.step a (App.ClickEndPlanning Rejected now scout)) = true)
  /\ (forall tr,
        let a := App.run App.init tr in
        App.canStartScan a = true ->
        App.caseId a <> EmptyString ->
        App.scanning (App.step a (App.ClickScanButton Rejected)) = false
        /\ App.canStartScan (App.step a (App.ClickScanButton Rejected))
           = true).
Proof.
  repeat match goal with |- _ /\ _ => split end.
  - intros a save now scout.
    pose proof (endPlanning_facts save now scout a) as F. unfold facts in F.
    apply pair_equal_spec in F as [F _].
    apply pair_equal_spec in F as [F _].
    apply pair_equal_spec in F as [_ F]. exact F.
  - intros a save now scout H.
    pose proof (endPlanning_facts save now scout a) as F. unfold facts in F.
    apply pair_equal_spec in F as [F _].
    apply pair_equal_spec in F as [_ F]. rewrite H in F.
    destruct (LeftControlPanel.wellFormed _); [destruct save|]; auto.
  - intros a now scout H.
    pose proof (endPlanning_facts Resolved now scout a) as F. unfold facts in F.
    apply pair_equal_spec in F as [F _].
    apply pair_equal_spec in F as [_ F]. rewrite H in F. exact F.
  - intros a Hc. apply String.eqb_neq in Hc.
    unfold App.startScan, App.onPanel, LeftControlPanel.handleStartScan.
    simpl. fold (App.caseId a). rewrite Hc. destruct a; reflexivity.
  - intros tr now scout a Hact.
    destruct (Inv_run App.init tr Inv_init) as [I1 I2]. fold a in I1, I2.
    change (App.isPlanningActive a = true) in Hact.
    destruct (I2 Hact) as [Hc Hsc].
    pose proof (step_facts a (App.ClickEndPlanning Rejected now scout)) as F.
    cbv beta iota in F. rewrite Hact, Hc, Hsc in F. unfold facts in F.
    apply pair_equal_spec in F as [F _].
    apply pair_equal_spec in F as [F E3].
    apply pair_equal_spec in F as [E1 E2].
    rewrite canStartPlanning_facts, E1, E2, E3.
    destruct (LeftControlPanel.wellFormed _); reflexivity.
  - intros tr a Hcan Hcase. apply String.eqb_neq in Hcase.
    rewrite canStartScan_facts in Hcan. apply andb_prop in Hcan as [Hc Hs].
    apply negb_true_iff in Hs.
    pose proof (step_facts a (App.ClickScanButton Rejected)) as F.
    cbv beta iota in F. rewrite Hs, Hc, Hcase in F. unfold facts in F.
    apply pair_equal_spec in F as [F E4].
    apply pair_equal_spec in F as [_ E3].
    rewrite canStartScan_facts, E3, E4. split; reflexivity.
Qed.

Lemma collaborator_failure_keeps_gate_retryable_witness :
  let a := Scenario.planningOn 800 1000 in
  App.canStartPlanning
    (App.step a (App.ClickEndPlanning Rejected 7%Z (Loaded 800 1000))) = true
  /\ App.startScan Rejected a = a.
Proof.
  split.
  - exact (proj1 (proj2 (proj2 (proj2 (proj2
             collaborator_failure_keeps_gate_retryable))))
             [App.SelectCase "A"; App.ClickScoutScan 5%Z (Loaded 800 1000);
              App.ClickStartPlanning]
             7%Z (Loaded 800 1000) eq_refl).
  - apply (proj1 (proj2 (proj2 (proj2
             collaborator_failure_keeps_gate_retryable)))).
    intro H; discriminate H.
Defined.

(** ** When Start Planning is enabled again *)

Section StartPlanningAgain.

Import App.

(** An End Planning click, taken while planning was active, that left
    [planningCompleted] false: the save was rejected, or skipped because
    the planning data was not well-formed. *)
Definition endedUncommitted (a : State) (tr : list Event) : Prop :=
  exists t1 save now scout t2,
    tr = t1 ++ ClickEndPlanning save now scout :: t2
    /\ isPlanningActive (run a t1) = true
    /\ planningCompleted
         (run a (t1 ++ [ClickEndPlanning save now scout])) = false.

(** A case selection followed, later, by a Scout Scan click. *)
Definition caseThenScout (tr : list Event) : Prop :=
  exists t1 id t2 now scout t3,
    tr = t1 ++ SelectCase id :: t2 ++ ClickScoutScan now scout :: t3.

Lemma existsb_split (p : Event -> bool) tr :
  existsb p tr = true ->
  exists t1 ev t2, tr = t1 ++ ev :: t2 /\ p ev = true.
Proof.
  intros H. apply existsb_exists in H as (ev & Hin & Hp).
  apply in_split in Hin as (t1 & t2 & ->). eauto.
Qed.

(** Without a case selection, only an End Planning click deactivates
    planning. *)
Lemma still_active_step a ev :
  isPlanningActive a = true ->
  isPlanningActive (step a ev) = false ->
  isSelectCase ev = false ->
  exists save now scout, ev = ClickEndPlanning save now scout.
Proof.
  intros Ha Hs He. pose proof (step_facts a ev) as F.
  unfold facts in F. rewrite canStartPlanning_facts, Ha in F.
  destruct ev; try discriminate He; try (eexists _, _, _; reflexivity);
    cbv beta iota delta [andb negb] in F;
    repeat match type of F with
      | context [if ?c then _ else _] => destruct c
      end;
    apply pair_equal_spec in F as [F _];
    apply pair_equal_spec in F as [F _];
    apply pair_equal_spec in F as [_ F]; congruence.
Qed.

Lemma deactivated_without_case_change tr :
  forall a,
    existsb isSelectCase tr = false ->
    isPlanningActive a = true ->
    isPlanningActive (run a tr) = false ->
    planningCompleted (run a tr) = false ->
    endedUncommitted a tr.
Proof.
  induction tr as [|ev tr IH]; intros a Hsel Ha Hf Hc.
  - simpl in Hf. congruence.
  - simpl in Hsel. apply orb_false_elim in Hsel as [Hev Hsel].
    rewrite run_cons in Hf, Hc.
    destruct (isPlanningActive (step a ev)) eqn:Hs.
    + destruct (IH (step a ev) Hsel Hs Hf Hc)
        as (t1 & save & now & scout & t2 & -> & H1 & H2).
      exists (ev :: t1), save, now, scout, t2. repeat split; assumption.
    + destruct (still_active_step a ev Ha Hs Hev)
        as (save & now & scout & ->).
      exists [], save, now, scout, tr. repeat split; [exact Ha|].
      change (run a ([] ++ [ClickEndPlanning save now scout]))
        with (step a (ClickEndPlanning save now scout)).
      destruct (planningCompleted (step a (ClickEndPlanning save now scout)))
        eqn:Hd; [|reflexivity].
      rewrite (completed_run _ tr Hsel Hd) in Hc. discriminate Hc.
Qed.

End StartPlanningAgain.

(** C7 (as amended).  Start Planning is disabled by a successful Start
    Planning click.  From a state where planning is active it is enabled
    again only after an End Planning that did not commit (the save was
    rejected, or skipped for planning data without both z bounds), or after a
    case selection followed by a Scout Scan.  Once End Planning has
    committed, it stays disabled as long as no case is selected. *)
Theorem canStartPlanning_again :
  (forall a,
     App.canStartPlanning a = true ->
     App.isPlanningActive (App.step a App.ClickStartPlanning) = true
     /\ App.canStartPlanning (App.step a App.ClickStartPlanning) = false)
  /\ (forall a tr,
        App.isPlanningActive a = true ->
        App.canStartPlanning (App.run a tr) = true ->
        endedUncommitted a tr \/ caseThenScout tr)
  /\ (forall a tr,
        App.planningCompleted a = true ->
        existsb isSelectCase tr = false ->
        App.canStartPlanning (App.run a tr) = false).
Proof.
  split; [|split].
  - intros a Hcan.
    pose proof (step_facts a App.ClickStartPlanning) as F.
    cbv beta iota in F. rewrite Hcan in F. unfold facts in F.
    apply pair_equal_spec in F as [F _].
    apply pair_equal_spec in F as [F E3].
    apply pair_equal_spec in F as [E1 E2].
    rewrite canStartPlanning_facts, E1, E2, E3. split; reflexivity.
  - intros a tr Ha Hcan.
    rewrite canStartPlanning_facts in Hcan.
    apply andb_prop in Hcan as [Hcan Hc]. apply andb_prop in Hcan as [Hsc Hp].
    apply negb_true_iff in Hc, Hp.
    destruct (existsb isSelectCase tr) eqn:Hsel.
    + right. apply existsb_split in Hsel as (t1 & ev & t2 & -> & Hev).
      destruct ev; try discriminate Hev.
      rewrite run_app, run_cons in Hsc.
      destruct (existsb isScoutScan t2) eqn:Hscan.
      * apply existsb_split in Hscan as (t2a & ev & t3 & -> & Hev').
        destruct ev; try discriminate Hev'.
        exists t1, newCaseId, t2a, now, scout, t3. reflexivity.
      * rewrite (not_scouted_run _ t2 Hscan) in Hsc; [discriminate Hsc|].
        pose proof (step_facts (App.run a t1) (App.SelectCase newCaseId)) as F.
        cbv beta iota in F. unfold facts in F.
        apply pair_equal_spec in F as [F _].
        apply pair_equal_spec in F as [F _].
        apply pair_equal_spec in F as [F _]. exact F.
    + left. apply deactivated_without_case_change; assumption.
  - intros a tr Hc Hsel. rewrite canStartPlanning_facts.
    rewrite (completed_run a tr Hsel Hc). apply andb_false_r.
Qed.

Lemma canStartPlanning_again_witness :
  let a := Scenario.planningOn 800 1000 in
  let tr := [App.ClickEndPlanning Rejected 7%Z (Loaded 800 1000)] in
  endedUncommitted a tr \/ caseThenScout tr.
Proof.
  exact (proj1 (proj2 canStartPlanning_again)
           (Scenario.planningOn 800 1000)
           [App.ClickEndPlanning Rejected 7%Z (Loaded 800 1000)]
           eq_refl eq_refl).
Defined.

(** C7 as stated fails: planning is started on the scout of case [A] and
    ended with a rejected save.  Start Planning is enabled again although
    nothing was committed ([planningCompleted] is false) and no case was
    selected. *)
Lemma canStartPlanning_again_counterexample :
  let a := Scenario.planningOn 800 1000 in
  let tr := [App.ClickEndPlanning Rejected 7%Z (Loaded 800 1000)] in
  App.isPlanningActive a = true
  /\ App.canStartPlanning a = false
  /\ App.canStartPlanning (App.run a tr) = true
  /\ App.planningCompleted (App.run a tr) = false
  /\ existsb isSelectCase tr = false.
Proof. vm_compute. repeat split. Qed.

(** ** Scout acquisition *)

Lemma Math_round_near x :
  x - (1 # 2) <= Math_round x /\ Math_round x <= x + (1 # 2).
Proof.
  unfold Math_round.
  pose proof (Qfloor_le (x + (1 # 2))) as Hle.
  pose proof (Qlt_floor (x + (1 # 2))) as Hlt.
  rewrite inject_Z_plus in Hlt. change (inject_Z 1) with 1 in Hlt.
  split; lra.
Qed.

(** C10.  A Scout Scan on a selected case, with a fresh positive refresh
    token and a scout source that delivers an image of [cols] x [rows]
    pixels, installs the lines at 20% and 80% of [rows] (rounded to a pixel)
    and the FOV from 20% to 80% of [cols] on the lines, whatever the planning
    was, and leaves [isPlanningActive] and [planningCompleted] as they
    were.  The button reaches this handler whenever no scan is running. *)
Theorem scout_scan_reinitialises_planning :
  forall a now cols rows,
    App.caseId a <> EmptyString ->
    (0 < now)%Z ->
    now <> SimTomLayout.scoutRefreshToken (App.layout a) ->
    let a' := App.scoutScan now (Loaded cols rows) a in
    let p := App.planning a' in
    let margin := Math_round (cols * 0.2) in
    PlanningLines.startY p = Math_round (rows * 0.2)
    /\ PlanningLines.endY p = Math_round (rows * 0.8)
    /\ PlanningLines.fov p
       = FOV.mk margin (cols - margin)
           (PlanningLines.startY p) (PlanningLines.endY p)
    /\ (rows * 0.2 - (1 # 2) <= PlanningLines.startY p
        /\ PlanningLines.startY p <= rows * 0.2 + (1 # 2))
    /\ (rows * 0.8 - (1 # 2) <= PlanningLines.endY p
        /\ PlanningLines.endY p <= rows * 0.8 + (1 # 2))
    /\ (cols * 0.2 - (1 # 2) <= margin /\ margin <= cols * 0.2 + (1 # 2))
    /\ ScoutViewer.scoutSize (App.viewer a') = Some (Size.mk cols rows)
    /\ App.isPlanningActive a' = App.isPlanningActive a
    /\ App.planningCompleted a' = App.planningCompleted a
    /\ App.scoutCompleted a' = true
    /\ (App.scanning a = false ->
        App.step a (App.ClickScoutScan now (Loaded cols rows)) = a').
Proof.
  intros a now cols rows Hcase Hpos Hnew a' p margin.
  apply String.eqb_neq in Hcase. apply Z.ltb_lt in Hpos.
  assert (Hne : Z.eqb (SimTomLayout.scoutRefreshToken (App.layout a)) now
                = false).
  { apply Z.eqb_neq. congruence. }
  assert (Ea : a' = App.notifyPlanning
                 (App.mk (SimTomLayout.handleScoutScan now (App.layout a))
                    (App.panel a)
                    (ScoutViewer.loadScout (App.viewer a)
                       (Loaded cols rows)))).
  { unfold a', App.scoutScan, App.refreshEffect, App.onPanel,
      LeftControlPanel.handleScoutScan, App.caseId. simpl.
    fold (App.caseId a). rewrite Hne, Hpos, Hcase. reflexivity. }
  assert (Ep : p = ScoutViewer.defaultPlanning cols rows).
  { unfold p. rewrite Ea. reflexivity. }
  repeat match goal with |- _ /\ _ => split end;
    try (rewrite Ep; simpl; apply Math_round_near);
    try (apply Math_round_near);
    try (rewrite Ep; reflexivity);
    try (rewrite Ea; reflexivity).
  intros Hs. simpl. rewrite Hs. reflexivity.
Qed.

Lemma scout_scan_reinitialises_planning_witness :
  let a := App.run (Scenario.planningOn 800 1000)
             (Scenario.gesture Drag_start (Scenario.at_ 0 200)
                (Scenario.rect 800 1000) (Scenario.at_ 0 300)) in
  PlanningLines.startY (App.planning a) == 300
  /\ PlanningLines.startY
       (App.planning (App.scoutScan 9%Z (Loaded 512 600) a))
     = Math_round (600 * 0.2).
Proof.
  split; [reflexivity|].
  refine (proj1 (scout_scan_reinitialises_planning _ 9%Z 512 600 _ _ _)).
  - intro H; discriminate H.
  - reflexivity.
  - intro H; discriminate H.
Defined.

(** ** Case change *)

(** A change to a different case resets the gate and the layout's planning
    data. *)
Lemma caseChange_resets_gate a newId :
  App.caseId a <> newId ->
  let b := App.caseChange newId a in
  App.caseId b = newId
  /\ App.isPlanningActive b = false
  /\ App.scoutCompleted b = false
  /\ App.planningCompleted b = false
  /\ App.scanning b = false
  /\ App.planningData b = PlanningData.empty.
Proof.
  intros Hne b. apply String.eqb_neq in Hne.
  unfold b, App.caseChange, App.caseEffects. simpl.
  change (App.caseId
            {| App.layout := SimTomLayout.handleCaseChange newId (App.layout a);
               App.panel := App.panel a; App.viewer := App.viewer a |})
    with newId.
  rewrite Hne. repeat split.
Qed.

(** The viewer is cleared only when the new identifier is empty. *)
Lemma caseChange_keeps_viewer a newId :
  newId <> EmptyString ->
  App.viewer (App.caseChange newId a) = App.viewer a.
Proof.
  intros Hne. apply String.eqb_neq in Hne.
  unfold App.caseChange, App.caseEffects. simpl.
  change (App.caseId
            {| App.layout := SimTomLayout.handleCaseChange newId (App.layout a);
               App.panel := App.panel a; App.viewer := App.viewer a |})
    with newId.
  destruct (String.eqb (App.caseId a) newId); [reflexivity|].
  simpl. unfold ScoutViewer.clearOnCaseChange. rewrite Hne. reflexivity.
Qed.

(** C3, the code at the failing input.  In case [A] a scout of 800 x 1000
    pixels is loaded, planning is started and the start line is dragged to
    300.  Selecting case [B] resets the gate and empties the layout's planning
    data, but the viewer keeps the scout size and the planning of [A].  If the
    scout of [B] then fails to load, planning can be started on [A]'s
    geometry, and the first move event hands [A]'s lines to the layout as the
    planning data of [B]. *)
Theorem case_change_keeps_planning_of_old_case :
  let a := App.run (Scenario.planningOn 800 1000)
             (Scenario.gesture Drag_start (Scenario.at_ 0 200)
                (Scenario.rect 800 1000) (Scenario.at_ 0 300)) in
  let b := App.step a (App.SelectCase "B") in
  let b' := App.run b [App.ClickScoutScan 9%Z NoResponse;
                       App.ClickStartPlanning;
                       App.MouseDown Drag_fov_right (Scenario.at_ 640 500);
                       App.MouseMove (Scenario.rect 800 1000)
                         (Scenario.at_ 640 500)] in
  (App.caseId a = "A"%string /\ App.isPlanningActive a = true)
  /\ (App.caseId b = "B"%string
      /\ App.isPlanningActive b = false
      /\ App.scoutCompleted b = false
      /\ App.planningCompleted b = false
      /\ App.planningData b = PlanningData.empty)
  /\ (App.planning b = App.planning a
      /\ PlanningLines.startY (App.planning b) == 300
      /\ ScoutViewer.scoutSize (App.viewer b) = Some (Size.mk 800 1000))
  /\ (App.caseId b' = "B"%string
      /\ App.isPlanningActive b' = true
      /\ PlanningData.z_pixel_start (App.planningData b')
         = Some (PlanningLines.startY (App.planning a))
      /\ PlanningData.z_pixel_end (App.planningData b')
         = Some (PlanningLines.endY (App.planning a))).
Proof.
  vm_compute. repeat split.
Qed.

(** * Further properties of the planning geometry *)

(** ** Rounding *)

Lemma Qfloor_unique (x : Q) (m : Z) :
  inject_Z m <= x -> x < inject_Z (m + 1) -> Qfloor x = m.
Proof.
  intros Hlo Hhi.
  pose proof (Qfloor_le x) as Fle. pose proof (Qlt_floor x) as Flt.
  assert (H1 : inject_Z (Qfloor x) < inject_Z (m + 1)) by lra.
  assert (H2 : inject_Z m < inject_Z (Qfloor x + 1)) by lra.
  rewrite <- Zlt_Qlt in H1, H2. lia.
Qed.

Lemma Math_round_mono x y : x <= y -> Math_round x <= Math_round y.
Proof.
  intros H. unfold Math_round. rewrite <- Zle_Qle.
  apply Qfloor_resp_le. lra.
Qed.

Lemma Math_round_shift x (n : Z) :
  Math_round (x + inject_Z n) == Math_round x + inject_Z n.
Proof.
  unfold Math_round. rewrite <- inject_Z_plus.
  apply inject_Z_injective.
  apply Qfloor_unique.
  - rewrite inject_Z_plus. pose proof (Qfloor_le (x + (1 # 2))). lra.
  - pose proof (Qlt_floor (x + (1 # 2))) as H.
    rewrite !inject_Z_plus in *. lra.
Qed.

Lemma Math_round_integer (n : Z) : Math_round (inject_Z n) = inject_Z n.
Proof.
  unfold Math_round. f_equal. apply Qfloor_unique.
  - lra.
  - rewrite inject_Z_plus. change (inject_Z 1) with 1. lra.
Qed.

Lemma Math_round_comp x y : x == y -> Math_round x = Math_round y.
Proof.
  intros H. unfold Math_round. f_equal. apply Qfloor_comp. rewrite H.
  reflexivity.
Qed.

(** ** The invariants of a planning in a frame *)

(** The lines are ordered inside the frame, the FOV's vertical extent is on
    the lines, and the FOV's columns are ordered inside the frame. *)
Definition planningValid (size : Size.t) (p : PlanningLines.t) : Prop :=
  linesValid (Size.height size) p
  /\ ySynced p
  /\ 0 <= FOV.x_min (PlanningLines.fov p)
  /\ FOV.x_min (PlanningLines.fov p) + 20 <= FOV.x_max (PlanningLines.fov p)
  /\ FOV.x_max (PlanningLines.fov p) <= Size.width size.

Lemma defaultPlanning_invariants cols rows :
  35 <= cols -> 35 <= rows ->
  let p := ScoutViewer.defaultPlanning cols rows in
  planningValid (Size.mk cols rows) p
  /\ FOV.x_min (PlanningLines.fov p) + FOV.x_max (PlanningLines.fov p)
     == cols.
Proof.
  revert cols rows.
  intros cols rows Hc Hr p. unfold p, planningValid, linesValid, ySynced.
  unfold ScoutViewer.defaultPlanning. simpl.
  pose proof (Math_round_near (rows * 0.2)) as [R1 R2].
  pose proof (Math_round_near (rows * 0.8)) as [R3 R4].
  pose proof (Math_round_near (cols * 0.2)) as [R5 R6].
  pose proof (Math_round_mono 0 (rows * 0.2)) as R7.
  pose proof (Math_round_mono 0 (cols * 0.2)) as R8.
  change (Math_round 0) with 0 in R7, R8.
  assert (0 <= Math_round (rows * 0.2)) by (apply R7; lra).
  assert (0 <= Math_round (cols * 0.2)) by (apply R8; lra).
  repeat match goal with |- _ /\ _ => split end; try reflexivity; lra.
Qed.

(** X1.  For a scout of at least 35 x 35 pixels the planning installed by
    [loadScout] satisfies the invariants, and its FOV is centred on the
    image's columns. *)
Theorem defaultPlanning_valid :
  forall cols rows,
    35 <= cols -> 35 <= rows ->
    let p := ScoutViewer.defaultPlanning cols rows in
    planningValid (Size.mk cols rows) p
    /\ FOV.x_min (PlanningLines.fov p) + FOV.x_max (PlanningLines.fov p)
       == cols.
Proof. exact defaultPlanning_invariants. Qed.

Lemma defaultPlanning_valid_witness :
  planningValid (Size.mk 800 1000) (ScoutViewer.defaultPlanning 800 1000).
Proof.
  refine (proj1 (defaultPlanning_valid 800 1000 _ _)); qcompute.
Defined.

Lemma planningValid_kept_by_move v rect e size v' :
  ScoutViewer.scoutSize v = Some size ->
  ScoutViewer.dragging v <> Some Drag_fov ->
  ScoutViewer.handleMouseMove v rect e = Some v' ->
  planningValid size (ScoutViewer.planning v) ->
  planningValid size (ScoutViewer.planning v').
Proof.
  intros Hs Hd Hm (Hl & (Hy1 & Hy2) & Hx0 & Hx1 & Hx2).
  destruct Hl as (L0 & L1 & L2).
  unfold ScoutViewer.handleMouseMove in Hm. rewrite Hs in Hm.
  destruct (ScoutViewer.dragging v) as [target|]; [|discriminate].
  injection Hm as Hv. rewrite <- Hv.
  destruct target; try congruence;
    unfold planningValid, linesValid, ySynced; simpl;
    repeat match goal with |- _ /\ _ => split end;
    try reflexivity; try assumption; clamp_cases; lra.
Qed.

(** X2.  The two line moves and the four FOV edge resizes keep the
    invariants, whatever the pointer position. *)
Theorem lines_and_edges_keep_planning_valid :
  forall v rect e size v',
    ScoutViewer.scoutSize v = Some size ->
    ScoutViewer.dragging v <> Some Drag_fov ->
    ScoutViewer.handleMouseMove v rect e = Some v' ->
    planningValid size (ScoutViewer.planning v) ->
    planningValid size (ScoutViewer.planning v').
Proof. exact planningValid_kept_by_move. Qed.

Lemma lines_and_edges_keep_planning_valid_witness :
  let v := ScoutViewer.handleMouseDown true
             (App.viewer (Scenario.planningOn 800 1000))
             (Scenario.at_ 162 500) Drag_fov_left in
  planningValid (Size.mk 800 1000)
    (ScoutViewer.planning
       (Scenario.moved v (Scenario.rect 800 1000) (Scenario.at_ 900 500))).
Proof.
  intro v.
  refine (lines_and_edges_keep_planning_valid v (Scenario.rect 800 1000)
            (Scenario.at_ 900 500) (Size.mk 800 1000) _
            eq_refl _ eq_refl _).
  - intro H; discriminate H.
  - refine (proj1 (defaultPlanning_invariants 800 1000 _ _)); qcompute.
Defined.

(** X3.  A FOV move keeps the lines and the width and height the box had at
    pointer-down; a box that fits in the frame stays inside the frame. *)
Theorem fov_move_keeps_size_inside_frame :
  forall v rect e size v',
    ScoutViewer.scoutSize v = Some size ->
    ScoutViewer.dragging v = Some Drag_fov ->
    ScoutViewer.handleMouseMove v rect e = Some v' ->
    let anchor := DragStart.fov (ScoutViewer.dragStartRef v) in
    let w := FOV.x_max anchor - FOV.x_min anchor in
    let h := FOV.y_max anchor - FOV.y_min anchor in
    let p := ScoutViewer.planning v in
    let f' := PlanningLines.fov (ScoutViewer.planning v') in
    PlanningLines.startY (ScoutViewer.planning v') = PlanningLines.startY p
    /\ PlanningLines.endY (ScoutViewer.planning v') = PlanningLines.endY p
    /\ FOV.x_max f' - FOV.x_min f' == w
    /\ FOV.y_max f' - FOV.y_min f' == h
    /\ (w <= Size.width size ->
        0 <= FOV.x_min f' /\ FOV.x_max f' <= Size.width size)
    /\ (h <= Size.height size ->
        0 <= FOV.y_min f' /\ FOV.y_max f' <= Size.height size).
Proof.
  intros v rect e size v' Hs Hd Hm anchor w h p f'.
  unfold ScoutViewer.handleMouseMove in Hm. rewrite Hs, Hd in Hm.
  injection Hm as Hv. unfold f'. rewrite <- Hv. simpl.
  fold anchor. fold w. fold h. clearbody w h.
  repeat match goal with |- _ /\ _ => split end;
    try reflexivity; try (intros Hfit; split); clamp_cases; lra.
Qed.

Lemma fov_move_keeps_size_inside_frame_witness :
  let v := ScoutViewer.handleMouseDown true
             (App.viewer (Scenario.planningOn 800 1000))
             (Scenario.at_ 200 300) Drag_fov in
  let f' := PlanningLines.fov
              (ScoutViewer.planning
                 (Scenario.moved v (Scenario.rect 800 1000)
                    (Scenario.at_ 790 990))) in
  0 <= FOV.x_min f' /\ FOV.x_max f' <= 800.
Proof.
  intros v f'.
  refine (proj1 (proj2 (proj2 (proj2 (proj2
            (fov_move_keeps_size_inside_frame v (Scenario.rect 800 1000)
               (Scenario.at_ 790 990) (Size.mk 800 1000) _
               eq_refl eq_refl eq_refl))))) _).
  qcompute.
Defined.

(** X4.  A move event changes only the quantities of the handle that is
    held: the rest of the planning, the scout size, the held handle and the
    anchor are what they were. *)
Theorem move_changes_only_the_held_handle :
  forall v rect e target v',
    ScoutViewer.dragging v = Some target ->
    ScoutViewer.handleMouseMove v rect e = Some v' ->
    restFor target (ScoutViewer.planning v')
    = restFor target (ScoutViewer.planning v)
    /\ ScoutViewer.scoutSize v' = ScoutViewer.scoutSize v
    /\ ScoutViewer.dragging v' = Some target
    /\ ScoutViewer.dragStartRef v' = ScoutViewer.dragStartRef v.
Proof.
  intros v rect e target v' Hd Hm.
  unfold ScoutViewer.handleMouseMove in Hm. rewrite Hd in Hm.
  destruct (ScoutViewer.scoutSize v) as [size|] eqn:Hs; [|discriminate].
  injection Hm as Hv. rewrite <- Hv. simpl. rewrite Hs, Hd.
  destruct target; repeat split.
Qed.

Lemma move_changes_only_the_held_handle_witness :
  restFor Drag_start
    (ScoutViewer.planning
       (Scenario.moved Scenario.holdingStart (Scenario.rect 800 1000)
          (Scenario.at_ 0 900)))
  = restFor Drag_start (ScoutViewer.planning Scenario.holdingStart).
Proof.
  exact (proj1 (move_changes_only_the_held_handle Scenario.holdingStart
                  (Scenario.rect 800 1000) (Scenario.at_ 0 900) Drag_start _
                  eq_refl eq_refl)).
Defined.

(** X5.  A move event that is repeated at the same pointer position changes
    nothing more: the planning does not drift under repeated events. *)
Theorem repeated_move_changes_nothing :
  forall v rect e v',
    ScoutViewer.handleMouseMove v rect e = Some v' ->
    ScoutViewer.handleMouseMove v' rect e = Some v'.
Proof.
  intros v rect e v' Hm.
  unfold ScoutViewer.handleMouseMove in *.
  destruct (ScoutViewer.dragging v) as [target|] eqn:Hd; [|discriminate].
  destruct (ScoutViewer.scoutSize v) as [size|] eqn:Hs; [|discriminate].
  injection Hm as Hv. rewrite <- Hv. simpl. rewrite Hd, Hs.
  destruct target; reflexivity.
Qed.

Lemma repeated_move_changes_nothing_witness :
  let v' := Scenario.moved Scenario.holdingStart (Scenario.rect 800 1000)
              (Scenario.at_ 0 900) in
  ScoutViewer.handleMouseMove v' (Scenario.rect 800 1000) (Scenario.at_ 0 900)
  = Some v'.
Proof.
  exact (repeated_move_changes_nothing Scenario.holdingStart
           (Scenario.rect 800 1000) (Scenario.at_ 0 900) _ eq_refl).
Defined.

(** ** From image pixels back to the display *)

(** [getDisplayPosition] and [getDisplayX] of ScoutViewer.tsx; they return 0
    without a scout size. *)
Definition getDisplayPosition (v : ScoutViewer.State) (rect : DOMRect.t)
    (pixelY : Q) : Q :=
  match ScoutViewer.scoutSize v with
  | Some size => (pixelY / Size.height size) * DOMRect.height rect
  | None => 0
  end.

Definition getDisplayX (v : ScoutViewer.State) (rect : DOMRect.t)
    (pixelX : Q) : Q :=
  match ScoutViewer.scoutSize v with
  | Some size => (pixelX / Size.width size) * DOMRect.width rect
  | None => 0
  end.

(** X6.  An FOV edge that is dragged lands under the pointer: as long as the
    pointer's image position is not clamped, the display position of the new
    edge is the pointer's offset in the container. *)
Theorem unclamped_edge_lands_under_pointer :
  forall v rect e size v',
    ScoutViewer.scoutSize v = Some size ->
    ScoutViewer.handleMouseMove v rect e = Some v' ->
    ~ Size.width size == 0 -> ~ Size.height size == 0 ->
    ~ DOMRect.width rect == 0 -> ~ DOMRect.height rect == 0 ->
    let f := PlanningLines.fov (ScoutViewer.planning v) in
    let f' := PlanningLines.fov (ScoutViewer.planning v') in
    let pointerX :=
      (MouseEvent.clientX e - DOMRect.left rect)
      * (Size.width size / DOMRect.width rect) in
    let pointerY :=
      (MouseEvent.clientY e - DOMRect.top rect)
      * (Size.height size / DOMRect.height rect) in
    (ScoutViewer.dragging v = Some Drag_fov_left ->
       0 <= pointerX -> pointerX <= FOV.x_max f - 20 ->
       getDisplayX v' rect (FOV.x_min f')
       == MouseEvent.clientX e - DOMRect.left rect)
    /\ (ScoutViewer.dragging v = Some Drag_fov_right ->
       FOV.x_min f + 20 <= pointerX -> pointerX <= Size.width size ->
       getDisplayX v' rect (FOV.x_max f')
       == MouseEvent.clientX e - DOMRect.left rect)
    /\ (ScoutViewer.dragging v = Some Drag_fov_top ->
       0 <= pointerY -> pointerY <= FOV.y_max f - 20 ->
       getDisplayPosition v' rect (FOV.y_min f')
       == MouseEvent.clientY e - DOMRect.top rect)
    /\ (ScoutViewer.dragging v = Some Drag_fov_bottom ->
       FOV.y_min f + 20 <= pointerY -> pointerY <= Size.height size ->
       getDisplayPosition v' rect (FOV.y_max f')
       == MouseEvent.clientY e - DOMRect.top rect).
Proof.
  intros v rect e size v' Hs Hm Hw Hh Hrw Hrh f f' pointerX pointerY.
  assert (HX : (pointerX / Size.width size) * DOMRect.width rect
               == MouseEvent.clientX e - DOMRect.left rect).
  { unfold pointerX. field. split; assumption. }
  assert (HY : (pointerY / Size.height size) * DOMRect.height rect
               == MouseEvent.clientY e - DOMRect.top rect).
  { unfold pointerY. field. split; assumption. }
  unfold ScoutViewer.handleMouseMove in Hm. rewrite Hs in Hm.
  destruct (ScoutViewer.dragging v) as [target|]; [|discriminate].
  injection Hm as Hv. unfold f', getDisplayX, getDisplayPosition.
  rewrite <- Hv. simpl. rewrite Hs. fold f. fold pointerX. fold pointerY.
  repeat match goal with |- _ /\ _ => split end;
    intros Hd Hlo Hhi; injection Hd as Ht; subst target; simpl.
  - rewrite (clamp_id 0 pointerX _ Hlo Hhi). exact HX.
  - rewrite (clamp_top_id _ pointerX _ Hlo Hhi). exact HX.
  - rewrite (clamp_id 0 pointerY _ Hlo Hhi). exact HY.
  - rewrite (clamp_top_id _ pointerY _ Hlo Hhi). exact HY.
Qed.

Lemma unclamped_edge_lands_under_pointer_witness :
  let v := ScoutViewer.handleMouseDown true
             (App.viewer (Scenario.planningOn 800 1000))
             (Scenario.at_ 81 250) Drag_fov_left in
  let r := DOMRect.mk 10 20 400 500 in
  getDisplayX (Scenario.moved v r (Scenario.at_ 110 250)) r
    (FOV.x_min
       (PlanningLines.fov
          (ScoutViewer.planning (Scenario.moved v r (Scenario.at_ 110 250)))))
  == 110 - 10.
Proof.
  intros v r.
  refine (proj1 (unclamped_edge_lands_under_pointer v r
            (Scenario.at_ 110 250) (Size.mk 800 1000) _
            eq_refl eq_refl _ _ _ _) eq_refl _ _); qcompute.
Defined.

(** X7.  A line that is dragged follows the pointer: as long as the raw
    position is not clamped, the line's display position is its display
    position at pointer-down plus the pointer's vertical displacement. *)
Theorem unclamped_line_follows_pointer :
  forall v rect e size v',
    ScoutViewer.scoutSize v = Some size ->
    ScoutViewer.handleMouseMove v rect e = Some v' ->
    ~ Size.height size == 0 -> ~ DOMRect.height rect == 0 ->
    let anchor := ScoutViewer.dragStartRef v in
    let p := ScoutViewer.planning v in
    let p' := ScoutViewer.planning v' in
    let displacement := MouseEvent.clientY e - DragStart.y anchor in
    let raw anchorValue :=
      anchorValue + displacement * (Size.height size / DOMRect.height rect) in
    (ScoutViewer.dragging v = Some Drag_start ->
       0 <= raw (DragStart.startY anchor) ->
       raw (DragStart.startY anchor) <= PlanningLines.endY p - 20 ->
       getDisplayPosition v' rect (PlanningLines.startY p')
       == getDisplayPosition v rect (DragStart.startY anchor) + displacement)
    /\ (ScoutViewer.dragging v = Some Drag_end ->
       PlanningLines.startY p + 20 <= raw (DragStart.endY anchor) ->
       raw (DragStart.endY anchor) <= Size.height size ->
       getDisplayPosition v' rect (PlanningLines.endY p')
       == getDisplayPosition v rect (DragStart.endY anchor) + displacement).
Proof.
  intros v rect e size v' Hs Hm Hh Hrh anchor p p' displacement raw.
  assert (HR : forall a,
             (raw a / Size.height size) * DOMRect.height rect
             == (a / Size.height size) * DOMRect.height rect + displacement).
  { intros a. unfold raw. field. split; assumption. }
  unfold ScoutViewer.handleMouseMove in Hm. rewrite Hs in Hm.
  destruct (ScoutViewer.dragging v) as [target|]; [|discriminate].
  injection Hm as Hv. unfold p', getDisplayPosition.
  rewrite <- Hv. simpl. rewrite Hs. fold anchor. fold p. fold displacement.
  split; intros Hd Hlo Hhi; injection Hd as Ht; subst target; simpl.
  - fold (raw (DragStart.startY anchor)).
    rewrite (clamp_id 0 _ _ Hlo Hhi). apply HR.
  - fold (raw (DragStart.endY anchor)).
    rewrite (clamp_top_id _ _ _ Hlo Hhi). apply HR.
Qed.

Lemma unclamped_line_follows_pointer_witness :
  let r := DOMRect.mk 10 20 400 500 in
  getDisplayPosition (Scenario.moved Scenario.holdingStart r
                        (Scenario.at_ 0 250)) r
    (PlanningLines.startY
       (ScoutViewer.planning
          (Scenario.moved Scenario.holdingStart r (Scenario.at_ 0 250))))
  == getDisplayPosition Scenario.holdingStart r 200 + (250 - 200).
Proof.
  intros r.
  refine (proj1 (unclamped_line_follows_pointer Scenario.holdingStart r
            (Scenario.at_ 0 250) (Size.mk 800 1000) _
            eq_refl eq_refl _ _) eq_refl _ _); qcompute.
Defined.

(** ** Mouse events outside a drag *)

Definition isMouse (ev : App.Event) : bool :=
  match ev with
  | App.MouseDown _ _ | App.MouseMove _ _ | App.MouseUp => true
  | _ => false
  end.

(** X8.  While planning is not active and no handle is held, no sequence of
    mouse events changes anything: the geometry can be edited in planning
    mode only. *)
Theorem mouse_is_inert_outside_planning :
  forall tr a,
    App.isPlanningActive a = false ->
    ScoutViewer.dragging (App.viewer a) = None ->
    forallb isMouse tr = true ->
    App.run a tr = a.
Proof.
  induction tr as [|ev tr IH]; intros a Ha Hd Hm; [reflexivity|].
  simpl in Hm. apply andb_prop in Hm as [Hev Htr].
  rewrite run_cons.
  assert (Hstep : App.step a ev = a).
  { destruct ev; try discriminate Hev; simpl.
    - unfold App.overlayShown. rewrite Ha. reflexivity.
    - unfold App.mouseMove, ScoutViewer.handleMouseMove. rewrite Hd.
      reflexivity.
    - unfold App.mouseUp, ScoutViewer.handleMouseUp. rewrite Hd.
      destruct a; reflexivity. }
  rewrite Hstep. apply IH; assumption.
Qed.

Lemma mouse_is_inert_outside_planning_witness :
  let a := App.run App.init
             [App.SelectCase "A"; App.ClickScoutScan 5%Z (Loaded 800 1000)] in
  App.run a [App.MouseDown Drag_start (Scenario.at_ 0 200);
             App.MouseMove (Scenario.rect 800 1000) (Scenario.at_ 0 900);
             App.MouseUp] = a.
Proof.
  intro a.
  exact (mouse_is_inert_outside_planning
           [App.MouseDown Drag_start (Scenario.at_ 0 200);
            App.MouseMove (Scenario.rect 800 1000) (Scenario.at_ 0 900);
            App.MouseUp] a eq_refl eq_refl eq_refl).
Defined.

(** * What is saved *)

(** The argument of [savePlanning]. *)
Module SavePlanning.
Record t : Type := mk {
  case_id : string;
  z_pixel_start : Q;
  z_pixel_end : Q;
  scout_height_px : Q;
  fov : FOV.t }.
End SavePlanning.

Definition roundFov (f : FOV.t) : FOV.t :=
  FOV.mk (Math_round (FOV.x_min f)) (Math_round (FOV.x_max f))
         (Math_round (FOV.y_min f)) (Math_round (FOV.y_max f)).

(** The request [handleMouseUp] of the viewer sends, if any: a handle is
    held, planning is active and there is a scout size. *)
Definition handleMouseUp_request (caseId : string) (isPlanningActive : bool)
    (v : ScoutViewer.State) : option SavePlanning.t :=
  match ScoutViewer.dragging v with
  | None => None
  | Some _ =>
      if isPlanningActive then
        match ScoutViewer.scoutSize v with
        | Some size =>
            let p := ScoutViewer.planning v in
            Some (SavePlanning.mk caseId
                    (Math_round (PlanningLines.startY p))
                    (Math_round (PlanningLines.endY p))
                    (Math_round (Size.height size))
                    (roundFov (PlanningLines.fov p)))
        | None => None
        end
      else None
  end.

(** [planningData.scout_height_px || 1000]: a missing height and the height
    0 both give 1000. *)
Definition heightOr1000 (h : option Q) : Q :=
  match h with
  | Some h => if Qeq_bool h 0 then 1000 else h
  | None => 1000
  end.

(** The request [handleEndPlanning] of the panel sends, if any: both z
    bounds are defined. *)
Definition handleEndPlanning_request (caseId : string) (d : PlanningData.t)
  : option SavePlanning.t :=
  match PlanningData.z_pixel_start d, PlanningData.z_pixel_end d with
  | Some zs, Some ze =>
      let fov :=
        ScanState.orElse (PlanningData.fov d) (FOV.mk 100 300 100 300) in
      Some (SavePlanning.mk caseId (Math_round zs) (Math_round ze)
              (Math_round (heightOr1000 (PlanningData.scout_height_px d)))
              (roundFov fov))
  | _, _ => None
  end.

(** The invariants of the data model on a saved request. *)
Definition requestValid (r : SavePlanning.t) : Prop :=
  0 <= SavePlanning.z_pixel_start r
  /\ SavePlanning.z_pixel_start r + 20 <= SavePlanning.z_pixel_end r
  /\ SavePlanning.z_pixel_end r <= SavePlanning.scout_height_px r
  /\ FOV.y_min (SavePlanning.fov r) == SavePlanning.z_pixel_start r
  /\ FOV.y_max (SavePlanning.fov r) == SavePlanning.z_pixel_end r
  /\ 0 <= FOV.x_min (SavePlanning.fov r)
  /\ FOV.x_min (SavePlanning.fov r) + 20 <= FOV.x_max (SavePlanning.fov r).

Lemma Math_round_gap x y : x + 20 <= y -> Math_round x + 20 <= Math_round y.
Proof.
  intros H. pose proof (Math_round_shift x 20) as Hs.
  change (inject_Z 20) with 20 in Hs. rewrite <- Hs.
  apply Math_round_mono, H.
Qed.

Lemma Math_round_nonneg x : 0 <= x -> 0 <= Math_round x.
Proof. intros H. apply (Math_round_mono 0 x H). Qed.

(** X9.  Rounding at the persistence boundary keeps the invariants: the
    request sent on release for a valid planning has its z bounds ordered
    with the 20 pixel gap inside the rounded frame height, the FOV rows on the
    z bounds and the FOV columns ordered with the gap. *)
Theorem saved_request_keeps_invariants :
  forall caseId v size r,
    ScoutViewer.scoutSize v = Some size ->
    planningValid size (ScoutViewer.planning v) ->
    handleMouseUp_request caseId true v = Some r ->
    requestValid r.
Proof.
  intros caseId v size r Hs ((L0 & L1 & L2) & (Y1 & Y2) & X0 & X1 & X2) Hr.
  unfold handleMouseUp_request in Hr. rewrite Hs in Hr.
  destruct (ScoutViewer.dragging v); [|discriminate].
  injection Hr as <-. unfold requestValid. simpl.
  repeat match goal with |- _ /\ _ => split end.
  - apply Math_round_nonneg, L0.
  - apply Math_round_gap. lra.
  - apply Math_round_mono. lra.
  - rewrite (Math_round_comp _ _ Y1). reflexivity.
  - rewrite (Math_round_comp _ _ Y2). reflexivity.
  - apply Math_round_nonneg, X0.
  - apply Math_round_gap, X1.
Qed.

Lemma saved_request_keeps_invariants_witness :
  let v := Scenario.moved Scenario.holdingStart (Scenario.rect 800 1000)
             (Scenario.at_ 0 (2501 # 10)) in
  let r := SavePlanning.mk "A" 250 800 1000 (FOV.mk 160 640 250 800) in
  handleMouseUp_request "A" true v = Some r /\ requestValid r.
Proof.
  intros v r. split; [reflexivity|].
  refine (saved_request_keeps_invariants "A" v (Size.mk 800 1000) r
            eq_refl _ eq_refl).
  refine (planningValid_kept_by_move Scenario.holdingStart
            (Scenario.rect 800 1000) (Scenario.at_ 0 (2501 # 10))
            (Size.mk 800 1000) v eq_refl _ eq_refl _).
  - intro H; discriminate H.
  - refine (proj1 (defaultPlanning_invariants 800 1000 _ _)); qcompute.
Defined.

(** ** The planning data of the layout and the viewer *)

Section PlanningDataSync.

Import App.

Definition scoutOf (ev : Event) : option ScoutOutcome :=
  match ev with
  | ClickScoutScan _ scout | ClickEndPlanning _ _ scout => Some scout
  | _ => None
  end.

(** What one event can do to the viewer and to the layout's planning
    data. *)
Inductive ViewerChange (a a' : State) (ev : Event) : Prop :=
| VC_same :
    viewer a' = viewer a -> planningData a' = planningData a ->
    ViewerChange a a' ev
| VC_loaded cols rows :
    scoutOf ev = Some (Loaded cols rows) ->
    viewer a' = ScoutViewer.loadScout (viewer a) (Loaded cols rows) ->
    ScoutViewer.planningDataOf (viewer a') = Some (planningData a') ->
    ViewerChange a a' ev
| VC_case id :
    ev = SelectCase id ->
    planningData a' = PlanningData.empty ->
    viewer a' = viewer a
    \/ (ScoutViewer.scoutSize (viewer a') = None
        /\ ScoutViewer.dragging (viewer a')
           = ScoutViewer.dragging (viewer a)) ->
    ViewerChange a a' ev
| VC_down target e :
    ev = MouseDown target e ->
    viewer a' = ScoutViewer.handleMouseDown true (viewer a) e target ->
    planningData a' = planningData a ->
    ViewerChange a a' ev
| VC_move r e :
    ScoutViewer.handleMouseMove (viewer a) r e = Some (viewer a') ->
    ScoutViewer.planningDataOf (viewer a') = Some (planningData a') ->
    ViewerChange a a' ev
| VC_up :
    viewer a' = ScoutViewer.handleMouseUp (viewer a) ->
    planningData a' = planningData a ->
    ViewerChange a a' ev.

Lemma refreshEffect_change old scout new ev :
  scoutOf ev = Some scout ->
  viewer new = viewer old -> planningData new = planningData old ->
  ViewerChange old (refreshEffect old scout new) ev.
Proof.
  intros Hev Hv Hd. unfold refreshEffect.
  destruct (_ && _ && _).
  - destruct scout as [cols rows| |].
    + apply (VC_loaded _ _ _ cols rows); [exact Hev| |]; simpl;
        rewrite <- ?Hv; reflexivity.
    + apply VC_same; assumption.
    + apply VC_same; assumption.
  - apply VC_same; assumption.
Qed.

Lemma step_viewer_change a ev : ViewerChange a (step a ev) ev.
Proof.
  destruct ev; simpl.
  - destruct (scanning a); [apply VC_same; reflexivity|].
    apply refreshEffect_change; reflexivity.
  - destruct (canStartPlanning a); apply VC_same; reflexivity.
  - destruct (canEndPlanning a); [|apply VC_same; reflexivity].
    apply refreshEffect_change; reflexivity.
  - destruct (scanning a); [apply VC_same; reflexivity|].
    destruct (canStartScan a); [|apply VC_same; reflexivity].
    apply VC_same; [reflexivity|].
    unfold startScan, onPanel, LeftControlPanel.handleStartScan, planningData.
    simpl. destruct (String.eqb _ _); [|destruct recon]; reflexivity.
  - apply VC_same; [reflexivity|]. destruct stop; reflexivity.
  - apply (VC_case _ _ _ newCaseId); [reflexivity| |].
    + unfold caseChange, caseEffects. destruct (String.eqb _ _); reflexivity.
    + unfold caseChange, caseEffects.
      destruct (String.eqb _ _); [left; reflexivity|]. simpl.
      unfold ScoutViewer.clearOnCaseChange.
      destruct (String.eqb _ _); [right; split; reflexivity|left; reflexivity].
  - apply VC_same; reflexivity.
  - destruct (overlayShown a) eqn:Ho; [|apply VC_same; reflexivity].
    apply (VC_down _ _ _ target e); [reflexivity| |reflexivity].
    unfold mouseDown. rewrite (overlayShown_active a Ho). reflexivity.
  - unfold mouseMove.
    destruct (ScoutViewer.handleMouseMove (viewer a) rect e) as [v'|] eqn:Hm;
      [|apply VC_same; reflexivity].
    assert (Hs : exists size, ScoutViewer.scoutSize v' = Some size).
    { unfold ScoutViewer.handleMouseMove in Hm.
      destruct (ScoutViewer.dragging (viewer a)); [|discriminate].
      destruct (ScoutViewer.scoutSize (viewer a)) as [size|] eqn:Hs;
        [|discriminate].
      injection Hm as <-. exists size. exact Hs. }
    destruct Hs as [size Hs].
    unfold notifyPlanning, ScoutViewer.planningDataOf. simpl. rewrite Hs.
    apply (VC_move _ _ _ rect e); simpl; [exact Hm|].
    unfold ScoutViewer.planningDataOf. rewrite Hs. reflexivity.
  - apply VC_up; reflexivity.
Qed.

(** The layout's planning data is empty or the viewer's notification. *)
Definition dataInSync (a : State) : Prop :=
  planningData a = PlanningData.empty
  \/ ScoutViewer.planningDataOf (viewer a) = Some (planningData a).

Lemma planningDataOf_same_geometry v v' :
  ScoutViewer.scoutSize v' = ScoutViewer.scoutSize v ->
  ScoutViewer.planning v' = ScoutViewer.planning v ->
  ScoutViewer.planningDataOf v' = ScoutViewer.planningDataOf v.
Proof.
  intros Hs Hp. unfold ScoutViewer.planningDataOf. rewrite Hs, Hp.
  reflexivity.
Qed.

Lemma dataInSync_step a ev : dataInSync a -> dataInSync (step a ev).
Proof.
  intros Ha. unfold dataInSync in *.
  destruct (step_viewer_change a ev)
    as [Hv Hd|cols rows _ _ Hn|id _ Hd _|target e _ Hv Hd|r e _ Hn|Hv Hd].
  - rewrite Hv, Hd. exact Ha.
  - right. exact Hn.
  - left. exact Hd.
  - rewrite Hd.
    rewrite (planningDataOf_same_geometry (viewer a) (viewer (step a ev)));
      [exact Ha| |]; rewrite Hv; reflexivity.
  - right. exact Hn.
  - rewrite Hd.
    rewrite (planningDataOf_same_geometry (viewer a) (viewer (step a ev)));
      [exact Ha| |]; rewrite Hv; unfold ScoutViewer.handleMouseUp;
      destruct (ScoutViewer.dragging (viewer a)); reflexivity.
Qed.

Lemma dataInSync_run tr : forall a, dataInSync a -> dataInSync (run a tr).
Proof.
  induction tr as [|ev tr IH]; intros a Ha; [exact Ha|].
  rewrite run_cons. apply IH, dataInSync_step, Ha.
Qed.

End PlanningDataSync.

(** X10.  End Planning saves what is shown: in every state the operator can
    reach, if [handleEndPlanning] sends a request at all, there is a scout
    and the request carries the viewer's current lines and FOV, rounded, with
    the scout height (or 1000 for the height 0). *)
Theorem end_planning_saves_what_is_shown :
  forall tr r,
    let a := App.run App.init tr in
    handleEndPlanning_request (App.caseId a) (App.planningData a) = Some r ->
    exists size,
      ScoutViewer.scoutSize (App.viewer a) = Some size
      /\ r = SavePlanning.mk (App.caseId a)
               (Math_round (PlanningLines.startY (App.planning a)))
               (Math_round (PlanningLines.endY (App.planning a)))
               (Math_round (heightOr1000 (Some (Size.height size))))
               (roundFov (PlanningLines.fov (App.planning a))).
Proof.
  intros tr r a Hr.
  assert (Hsync : dataInSync a).
  { apply dataInSync_run. left. reflexivity. }
  destruct Hsync as [He | Hn].
  - rewrite He in Hr. discriminate Hr.
  - unfold ScoutViewer.planningDataOf in Hn.
    destruct (ScoutViewer.scoutSize (App.viewer a)) as [size|]; [|discriminate].
    exists size. split; [reflexivity|].
    injection Hn as Hd. rewrite <- Hd in Hr. simpl in Hr.
    injection Hr as <-. reflexivity.
Qed.

Lemma end_planning_saves_what_is_shown_witness :
  let a := App.run (Scenario.planningOn 800 1000)
             (Scenario.gesture Drag_start (Scenario.at_ 0 200)
                (Scenario.rect 800 1000) (Scenario.at_ 0 300)) in
  exists size,
    ScoutViewer.scoutSize (App.viewer a) = Some size
    /\ SavePlanning.mk "A" 300 800 1000 (FOV.mk 160 640 300 800)
       = SavePlanning.mk (App.caseId a)
           (Math_round (PlanningLines.startY (App.planning a)))
           (Math_round (PlanningLines.endY (App.planning a)))
           (Math_round (heightOr1000 (Some (Size.height size))))
           (roundFov (PlanningLines.fov (App.planning a))).
Proof.
  exact (end_planning_saves_what_is_shown
           ([App.SelectCase "A"; App.ClickScoutScan 5%Z (Loaded 800 1000);
             App.ClickStartPlanning]
            ++ Scenario.gesture Drag_start (Scenario.at_ 0 200)
                 (Scenario.rect 800 1000) (Scenario.at_ 0 300))
           (SavePlanning.mk "A" 300 800 1000 (FOV.mk 160 640 300 800))
           eq_refl).
Defined.

(** ** Every planning the operator can reach without moving the FOV box *)

(** Events that keep the invariants: scouts of at least 35 x 35 pixels and
    no grab of the FOV body. *)
Definition gentle (ev : App.Event) : Prop :=
  match ev with
  | App.MouseDown Drag_fov _ => False
  | _ =>
      match scoutOf ev with
      | Some (Loaded cols rows) => 35 <= cols /\ 35 <= rows
      | _ => True
      end
  end.

Definition viewerValid (a : App.State) : Prop :=
  ScoutViewer.dragging (App.viewer a) <> Some Drag_fov
  /\ forall size,
       ScoutViewer.scoutSize (App.viewer a) = Some size ->
       planningValid size (App.planning a).

Lemma viewerValid_step a ev :
  gentle ev -> viewerValid a -> viewerValid (App.step a ev).
Proof.
  intros Hg [Hd Hp]. unfold viewerValid, App.planning in *.
  destruct (step_viewer_change a ev)
    as [Hv _|cols rows Hev Hv _|id _ _ [Hv|[Hs Hdr]]
       |target e Hev Hv _|r e Hm _|Hv _].
  - rewrite Hv. split; assumption.
  - rewrite Hv. simpl. split; [exact Hd|].
    intros size Hs. injection Hs as <-.
    assert (Hdim : 35 <= cols /\ 35 <= rows).
    { destruct ev; simpl in Hev; try discriminate Hev;
        injection Hev as ->; exact Hg. }
    apply defaultPlanning_invariants; tauto.
  - rewrite Hv. split; assumption.
  - rewrite Hs, Hdr. split; [exact Hd|]. intros size H. discriminate H.
  - rewrite Hv. simpl. split; [|exact Hp].
    subst ev. intros H. injection H as ->. exact Hg.
  - assert (Hkeep : ScoutViewer.scoutSize (App.viewer (App.step a ev))
                    = ScoutViewer.scoutSize (App.viewer a)
                    /\ ScoutViewer.dragging (App.viewer (App.step a ev))
                       = ScoutViewer.dragging (App.viewer a)).
    { unfold ScoutViewer.handleMouseMove in Hm.
      destruct (ScoutViewer.dragging (App.viewer a)) eqn:Hd0; [|discriminate].
      destruct (ScoutViewer.scoutSize (App.viewer a)) eqn:Hs0; [|discriminate].
      injection Hm as <-. simpl. split; assumption. }
    destruct Hkeep as [Ks Kd]. rewrite Ks, Kd. split; [exact Hd|].
    intros size Hs.
    apply (planningValid_kept_by_move (App.viewer a) r e size _ Hs Hd Hm).
    apply Hp, Hs.
  - rewrite Hv. unfold ScoutViewer.handleMouseUp.
    destruct (ScoutViewer.dragging (App.viewer a)) eqn:Hdr; simpl.
    + split; [discriminate|exact Hp].
    + rewrite Hdr. split; [discriminate|exact Hp].
Qed.

(** X11.  Whatever the operator does, as long as every scout that arrives
    has at least 35 x 35 pixels and the FOV body is never grabbed, the
    planning of the viewer satisfies the invariants whenever there is a
    scout. *)
Theorem reachable_planning_is_valid :
  forall tr,
    Forall gentle tr ->
    forall size,
      ScoutViewer.scoutSize (App.viewer (App.run App.init tr)) = Some size ->
      planningValid size (App.planning (App.run App.init tr)).
Proof.
  intros tr Htr.
  assert (H : forall a, viewerValid a -> viewerValid (App.run a tr)).
  { induction Htr as [|ev tr Hev _ IH]; intros a Ha; [exact Ha|].
    rewrite run_cons. apply IH, viewerValid_step; assumption. }
  apply H. split; [discriminate|]. intros size Hs. discriminate Hs.
Qed.

Lemma reachable_planning_is_valid_witness :
  planningValid (Size.mk 800 1000)
    (App.planning
       (App.run App.init
          [App.SelectCase "A"; App.ClickScoutScan 5%Z (Loaded 800 1000);
           App.ClickStartPlanning;
           App.MouseDown Drag_end (Scenario.at_ 0 800);
           App.MouseMove (Scenario.rect 800 1000) (Scenario.at_ 0 190)])).
Proof.
  refine (reachable_planning_is_valid
            [App.SelectCase "A"; App.ClickScoutScan 5%Z (Loaded 800 1000);
             App.ClickStartPlanning;
             App.MouseDown Drag_end (Scenario.at_ 0 800);
             App.MouseMove (Scenario.rect 800 1000) (Scenario.at_ 0 190)]
            _ (Size.mk 800 1000) eq_refl).
  repeat constructor; simpl; try exact I; qcompute.
Defined.

(** * Further properties of the workflow *)

(** X13.  The scout reload that End Planning triggers discards the geometry
    that was just saved: on a selected case, with a fresh positive token and
    a scout source that delivers [cols] x [rows] pixels, the viewer's planning
    after End Planning is the default planning of that scout and the layout's
    planning data is its notification, whatever the operator had dragged. *)
Theorem end_planning_reloads_default_geometry :
  forall a save now cols rows,
    App.caseId a <> EmptyString ->
    (0 < now)%Z ->
    now <> SimTomLayout.scoutRefreshToken (App.layout a) ->
    let a' := App.endPlanning save now (Loaded cols rows) a in
    App.planning a' = ScoutViewer.defaultPlanning cols rows
    /\ App.planningData a'
       = PlanningData.mk
           (Some (PlanningLines.startY (ScoutViewer.defaultPlanning cols rows)))
           (Some (PlanningLines.endY (ScoutViewer.defaultPlanning cols rows)))
           (Some rows)
           (Some (PlanningLines.fov (ScoutViewer.defaultPlanning cols rows)))
    /\ App.caseId a' = App.caseId a.
Proof.
  intros a save now cols rows Hcase Hpos Hnew a'.
  apply String.eqb_neq in Hcase. apply Z.ltb_lt in Hpos.
  assert (Hne : Z.eqb (SimTomLayout.scoutRefreshToken (App.layout a)) now
                = false).
  { apply Z.eqb_neq. congruence. }
  unfold a', App.endPlanning, App.refreshEffect, App.onPanel,
    LeftControlPanel.handleEndPlanning, App.caseId. simpl.
  fold (App.caseId a). rewrite Hne, Hpos, Hcase. repeat split.
Qed.

Lemma end_planning_reloads_default_geometry_witness :
  let a := App.run (Scenario.planningOn 800 1000)
             (Scenario.gesture Drag_start (Scenario.at_ 0 200)
                (Scenario.rect 800 1000) (Scenario.at_ 0 300)) in
  PlanningLines.startY (App.planning a) == 300
  /\ App.planning (App.endPlanning Resolved 7%Z (Loaded 800 1000) a)
     = ScoutViewer.defaultPlanning 800 1000.
Proof.
  split; [reflexivity|].
  refine (proj1 (end_planning_reloads_default_geometry _ Resolved 7%Z
                   800 1000 _ _ _)).
  - intro H; discriminate H.
  - reflexivity.
  - intro H; discriminate H.
Defined.

(** X14.  A Scout Scan that brings no image (no response, an exception, or
    no case selected) leaves the viewer and the planning data as they were
    and still marks the scout as completed: Start Planning is enabled unless
    planning is active or completed. *)
Theorem scout_scan_without_image_still_completes_scout :
  forall a now scout,
    App.scanning a = false ->
    scout = NoResponse \/ scout = Threw \/ App.caseId a = EmptyString ->
    let a' := App.step a (App.ClickScoutScan now scout) in
    App.scoutCompleted a' = true
    /\ App.viewer a' = App.viewer a
    /\ App.planningData a' = App.planningData a
    /\ App.canStartPlanning a'
       = negb (App.isPlanningActive a) && negb (App.planningCompleted a).
Proof.
  intros a now scout Hs Hno a'. unfold a'. simpl. rewrite Hs.
  unfold App.scoutScan, App.refreshEffect, App.onPanel,
    LeftControlPanel.handleScoutScan, App.caseId. simpl.
  fold (App.caseId a).
  destruct Hno as [-> | [-> | Hc]].
  - destruct (_ && _ && _); repeat split.
  - destruct (_ && _ && _); repeat split.
  - rewrite Hc. simpl. rewrite andb_false_r. repeat split.
Qed.

Lemma scout_scan_without_image_still_completes_scout_witness :
  App.canStartPlanning
    (App.step App.init (App.ClickScoutScan 5%Z (Loaded 800 1000))) = true.
Proof.
  exact (proj2 (proj2 (proj2
           (scout_scan_without_image_still_completes_scout App.init 5%Z
              (Loaded 800 1000) eq_refl (or_intror (or_intror eq_refl)))))).
Defined.

(** X15.  [planningCompleted] is reset only by selecting a different case:
    if it is true and false after a sequence of events, the sequence contains
    the selection of a case other than the current one. *)
Theorem planningCompleted_reset_only_by_other_case :
  forall tr a,
    App.planningCompleted a = true ->
    App.planningCompleted (App.run a tr) = false ->
    exists t1 id t2,
      tr = t1 ++ App.SelectCase id :: t2
      /\ App.caseId (App.run a t1) <> id.
Proof.
  induction tr as [|ev tr IH]; intros a Hc Hf.
  - simpl in Hf. congruence.
  - rewrite run_cons in Hf.
    destruct (App.planningCompleted (App.step a ev)) eqn:Hs.
    + destruct (IH _ Hs Hf) as (t1 & id & t2 & -> & Hne).
      exists (ev :: t1), id, t2. split; [reflexivity|exact Hne].
    + destruct (isSelectCase ev) eqn:Hev.
      * destruct ev; try discriminate Hev.
        exists [], newCaseId, tr. split; [reflexivity|]. simpl.
        pose proof (step_facts a (App.SelectCase newCaseId)) as F.
        cbv beta iota in F. unfold facts in F.
        apply pair_equal_spec in F as [F _].
        apply pair_equal_spec in F as [_ F].
        rewrite Hs, Hc in F.
        destruct (String.eqb (App.caseId a) newCaseId) eqn:He;
          [discriminate F|].
        apply String.eqb_neq, He.
      * rewrite (completed_step a ev Hev Hc) in Hs. discriminate Hs.
Qed.

Lemma planningCompleted_reset_only_by_other_case_witness :
  let a := App.step (Scenario.planningOn 800 1000)
             (App.ClickEndPlanning Resolved 7%Z (Loaded 800 1000)) in
  exists t1 id t2,
    [App.ClickScoutScan 9%Z NoResponse; App.SelectCase "B"]
    = t1 ++ App.SelectCase id :: t2
    /\ App.caseId (App.run a t1) <> id.
Proof.
  exact (planningCompleted_reset_only_by_other_case
           [App.ClickScoutScan 9%Z NoResponse; App.SelectCase "B"]
           (App.step (Scenario.planningOn 800 1000)
              (App.ClickEndPlanning Resolved 7%Z (Loaded 800 1000)))
           eq_refl eq_refl).
Defined.

(** Selecting the case that is already selected resets the scout, the
    planning mode, the scan and the planning data, but keeps
    [planningCompleted] and the viewer: the effects on [caseId] do not
    run. *)
Lemma reselecting_the_case_keeps_planningCompleted :
  forall a,
    let b := App.caseChange (App.caseId a) a in
    App.planningCompleted b = App.planningCompleted a
    /\ App.viewer b = App.viewer a
    /\ App.scoutCompleted b = false
    /\ App.isPlanningActive b = false
    /\ App.scanning b = false
    /\ App.planningData b = PlanningData.empty
    /\ App.canStartScan b = App.planningCompleted a.
Proof.
  intros a b. unfold b, App.caseChange, App.caseEffects. simpl.
  change (App.caseId
            {| App.layout :=
                 SimTomLayout.handleCaseChange (App.caseId a) (App.layout a);
               App.panel := App.panel a; App.viewer := App.viewer a |})
    with (App.caseId a).
  rewrite String.eqb_refl. repeat split.
  unfold App.canStartScan, LeftControlPanel.canStartScan. simpl.
  apply andb_true_r.
Qed.

(** * Reconstruction parameters (LeftControlPanel.tsx and the layout) *)

(** The [reconParams] state of the layout. *)
Module ReconParams.
Record t : Type := mk { sliceThickness : option Q; sliceSpacing : option Q }.
End ReconParams.

(** The argument of [applyReconstruction]. *)
Module ApplyReconstruction.
Record t : Type := mk {
  case_id : string;
  slice_thickness_mm : Q;
  slice_spacing_mm : Q;
  planning : PlanningData.t }.
End ApplyReconstruction.

Module ReconPanel.

(** The layout's [reconParams] and the panel's two local values. *)
Record State : Type := mk {
  reconParams : ReconParams.t;
  localReconThickness : Q;
  localReconSpacing : Q }.

Definition init : State := mk (ReconParams.mk (Some 5.0) (Some 5.0)) 5.0 5.0.

(** The effect on [reconParams]: the local values follow, with [?? 5.0]. *)
Definition syncLocal (s : State) : State :=
  mk (reconParams s)
     (ScanState.orElse (ReconParams.sliceThickness (reconParams s)) 5.0)
     (ScanState.orElse (ReconParams.sliceSpacing (reconParams s)) 5.0).

(** [parseFloat(e.target.value) || 0]; [None] is NaN. *)
Definition parseFloatOr0 (parsed : option Q) : Q :=
  match parsed with
  | Some q => q
  | None => 0
  end.

(** The [onChange] of the thickness input: the local value is set,
    [onReconParamsChange = setReconParams] is called, the effect runs. *)
Definition onThicknessChange (parsed : option Q) (s : State) : State :=
  let value := parseFloatOr0 parsed in
  syncLocal
    (mk (ReconParams.mk (Some value) (Some (localReconSpacing s)))
        value (localReconSpacing s)).

Definition onSpacingChange (parsed : option Q) (s : State) : State :=
  let value := parseFloatOr0 parsed in
  syncLocal
    (mk (ReconParams.mk (Some (localReconThickness s)) (Some value))
        (localReconThickness s) value).

Inductive Edit : Type :=
| Thickness (parsed : option Q)
| Spacing (parsed : option Q).

Definition step (s : State) (ed : Edit) : State :=
  match ed with
  | Thickness parsed => onThicknessChange parsed s
  | Spacing parsed => onSpacingChange parsed s
  end.

Definition run (s : State) (eds : list Edit) : State := fold_left step eds s.

(** The request of [handleStartScan], sent when there is a case. *)
Definition handleStartScan_request (caseId : string) (d : PlanningData.t)
    (s : State) : option ApplyReconstruction.t :=
  if String.eqb caseId EmptyString then None
  else Some (ApplyReconstruction.mk caseId (localReconThickness s)
               (localReconSpacing s) d).

Definition isThickness (ed : Edit) : bool :=
  match ed with Thickness _ => true | Spacing _ => false end.

Definition isSpacing (ed : Edit) : bool :=
  match ed with Spacing _ => true | Thickness _ => false end.

End ReconPanel.

Section ReconParamsFacts.

Import ReconPanel.

Definition reconInSync (s : State) : Prop :=
  reconParams s
  = ReconParams.mk (Some (localReconThickness s)) (Some (localReconSpacing s)).

Lemma reconInSync_run eds : forall s, reconInSync s -> reconInSync (run s eds).
Proof.
  induction eds as [|ed eds IH]; intros s Hs; [exact Hs|].
  apply IH. destruct ed; reflexivity.
Qed.

Lemma thickness_kept eds :
  forall s, existsb isThickness eds = false ->
            localReconThickness (run s eds) = localReconThickness s.
Proof.
  induction eds as [|ed eds IH]; intros s H; [reflexivity|].
  simpl in H. apply orb_false_elim in H as [Hed H].
  destruct ed; [discriminate Hed|]. simpl. rewrite (IH _ H). reflexivity.
Qed.

Lemma spacing_kept eds :
  forall s, existsb isSpacing eds = false ->
            localReconSpacing (run s eds) = localReconSpacing s.
Proof.
  induction eds as [|ed eds IH]; intros s H; [reflexivity|].
  simpl in H. apply orb_false_elim in H as [Hed H].
  destruct ed; [|discriminate Hed]. simpl. rewrite (IH _ H). reflexivity.
Qed.

Lemma recon_run_app s e1 e2 : run s (e1 ++ e2) = run (run s e1) e2.
Proof. apply fold_left_app. Qed.

End ReconParamsFacts.

(** X17.  After any sequence of edits of the two inputs, the layout's
    [reconParams] hold the panel's two values, and the request of Start Scan
    carries, for each parameter, the value of its last edit (0 for an entry
    that does not parse) or 5.0 if it was never edited. *)
Theorem reconstruction_request_carries_last_entries :
  forall eds caseId d,
    caseId <> EmptyString ->
    let s := ReconPanel.run ReconPanel.init eds in
    reconInSync s
    /\ ReconPanel.handleStartScan_request caseId d s
       = Some (ApplyReconstruction.mk caseId
                 (ReconPanel.localReconThickness s)
                 (ReconPanel.localReconSpacing s) d)
    /\ (existsb ReconPanel.isThickness eds = false ->
        ReconPanel.localReconThickness s = 5.0)
    /\ (existsb ReconPanel.isSpacing eds = false ->
        ReconPanel.localReconSpacing s = 5.0)
    /\ (forall pre parsed post,
          eds = pre ++ ReconPanel.Thickness parsed :: post ->
          existsb ReconPanel.isThickness post = false ->
          ReconPanel.localReconThickness s
          = ReconPanel.parseFloatOr0 parsed)
    /\ (forall pre parsed post,
          eds = pre ++ ReconPanel.Spacing parsed :: post ->
          existsb ReconPanel.isSpacing post = false ->
          ReconPanel.localReconSpacing s = ReconPanel.parseFloatOr0 parsed).
Proof.
  intros eds caseId d Hc s. apply String.eqb_neq in Hc.
  repeat match goal with |- _ /\ _ => split end.
  - apply reconInSync_run. reflexivity.
  - unfold ReconPanel.handleStartScan_request. rewrite Hc. reflexivity.
  - intros H. unfold s. rewrite (thickness_kept eds _ H). reflexivity.
  - intros H. unfold s. rewrite (spacing_kept eds _ H). reflexivity.
  - intros pre parsed post -> H. unfold s.
    rewrite recon_run_app. change (ReconPanel.run ?x (?e :: post))
      with (ReconPanel.run (ReconPanel.step x e) post).
    rewrite (thickness_kept post _ H). reflexivity.
  - intros pre parsed post -> H. unfold s.
    rewrite recon_run_app. change (ReconPanel.run ?x (?e :: post))
      with (ReconPanel.run (ReconPanel.step x e) post).
    rewrite (spacing_kept post _ H). reflexivity.
Qed.

Lemma reconstruction_request_carries_last_entries_witness :
  ReconPanel.handleStartScan_request "A" PlanningData.empty
    (ReconPanel.run ReconPanel.init
       [ReconPanel.Thickness (Some 2.5); ReconPanel.Spacing None;
        ReconPanel.Thickness (Some 1.25)])
  = Some (ApplyReconstruction.mk "A" 1.25 0 PlanningData.empty).
Proof.
  refine (proj1 (proj2 (reconstruction_request_carries_last_entries
            [ReconPanel.Thickness (Some 2.5); ReconPanel.Spacing None;
             ReconPanel.Thickness (Some 1.25)] "A" PlanningData.empty _))).
  intro H; discriminate H.
Defined.

(** * Slice navigation and zoom (DICOMViewer.tsx) *)

Module DICOMViewer.

(** The slice state, the ref that mirrors it, the number of slices and the
    zoom factor. *)
Record State : Type := mk {
  currentSlice : Z;
  currentSliceRef : Z;
  totalSlices : Z;
  zoom : Q }.

Definition init : State := mk 0 0 0 1.

Definition handleSliceChange (newSlice : Z) (s : State) : State :=
  let maxSlices := totalSlices s in
  if (maxSlices <=? 0)%Z then s
  else
    let minSlice := 0%Z in
    let maxSlice := (maxSlices - 1)%Z in
    let clampedSlice := Z.max minSlice (Z.min newSlice maxSlice) in
    let prevSlice := currentSliceRef s in
    if (prevSlice =? clampedSlice)%Z then s
    else mk clampedSlice clampedSlice (totalSlices s) (zoom s).

Definition setZoom (z : Q) (s : State) : State :=
  mk (currentSlice s) (currentSliceRef s) (totalSlices s) z.

(** [e.deltaY > 0] *)
Definition positive (deltaY : Q) : bool := negb (Qle_bool deltaY 0).

Definition handleWheel (deltaY : Q) (ctrlKey : bool) (s : State) : State :=
  if ctrlKey then
    let zoomDelta := if positive deltaY then 0.9 else 1.1 in
    setZoom (Math_max 0.1 (Math_min 10 (zoom s * zoomDelta))) s
  else
    let delta := if positive deltaY then 1%Z else (-1)%Z in
    handleSliceChange (currentSliceRef s + delta) s.

(** The [scroll] tool of [handleMouseMove] while dragging; [deltaY] is the
    vertical distance from the start of the drag. *)
Definition scrollDrag (deltaY : Q) (s : State) : State :=
  let sliceDelta := Qfloor (deltaY / 10 + (1 # 2)) in
  handleSliceChange (currentSliceRef s + sliceDelta) s.

(** The "-" and "+" buttons of the zoom control. *)
Definition zoomOut (s : State) : State :=
  setZoom (Math_max 0.1 (zoom s / 1.2)) s.

Definition zoomIn (s : State) : State :=
  setZoom (Math_min 10 (zoom s * 1.2)) s.

(** One tick of the playback interval started by [togglePlay], which
    captured [maxSlice]; the effect on [currentSlice] then updates the
    ref. *)
Definition playTick (maxSlice : Z) (s : State) : State :=
  let next := (currentSlice s + 1)%Z in
  let shown := if (maxSlice <? next)%Z then 0%Z else next in
  mk shown shown (totalSlices s) (zoom s).



Inductive Event : Type :=
| Wheel (deltaY : Q) (ctrlKey : bool)
| ScrollDrag (deltaY : Q)
| ZoomOut
| ZoomIn.

Definition step (s : State) (ev : Event) : State :=
  match ev with
  | Wheel deltaY ctrlKey => handleWheel deltaY ctrlKey s
  | ScrollDrag deltaY => scrollDrag deltaY s
  | ZoomOut => zoomOut s
  | ZoomIn => zoomIn s
  end.

Definition run (s : State) (evs : list Event) : State := fold_left step evs s.

End DICOMViewer.

Section SliceNavigation.

Import DICOMViewer.


Definition zoomOk (s : State) : Prop := 0.1 <= zoom s /\ zoom s <= 10.



Lemma handleSliceChange_zoom n s : zoom (handleSliceChange n s) = zoom s.
Proof.
  unfold handleSliceChange.
  destruct (totalSlices s <=? 0)%Z; [reflexivity|].
  destruct (currentSliceRef s =? _)%Z; reflexivity.
Qed.

Lemma step_zoom_ok s ev : zoomOk s -> zoomOk (step s ev).
Proof.
  intros [Hlo Hhi]. destruct ev; unfold zoomOk; simpl.
  - unfold handleWheel. destruct ctrlKey.
    + simpl. split; clamp_cases; lra.
    + rewrite handleSliceChange_zoom. split; assumption.
  - unfold scrollDrag. rewrite handleSliceChange_zoom. split; assumption.
  - assert (Hd : zoom s / 1.2 == zoom s * (5 # 6)) by field.
    revert Hd. generalize (zoom s / 1.2). intros d Hd.
    split; clamp_cases; lra.
  - split; clamp_cases; lra.
Qed.

End SliceNavigation.



(** X19.  Playback cycles through the stack: from a slice inside
    [0..maxSlice], [k] ticks show the slice [(slice + k) mod (maxSlice + 1)];
    the slice stays inside the stack, and [maxSlice + 1] ticks come back to
    the slice playback started from. *)
Theorem playback_cycles_through_the_stack :
  forall maxSlice s k,
    (0 <= DICOMViewer.currentSlice s <= maxSlice)%Z ->
    let s' := Nat.iter k (DICOMViewer.playTick maxSlice) s in
    DICOMViewer.currentSlice s'
    = ((DICOMViewer.currentSlice s + Z.of_nat k) mod (maxSlice + 1))%Z
    /\ (0 <= DICOMViewer.currentSlice s' <= maxSlice)%Z
    /\ (Z.of_nat k = (maxSlice + 1)%Z ->
        DICOMViewer.currentSlice s' = DICOMViewer.currentSlice s).
Proof.
  intros maxSlice s k Hs s'.
  assert (Hc : DICOMViewer.currentSlice s'
               = ((DICOMViewer.currentSlice s + Z.of_nat k)
                  mod (maxSlice + 1))%Z).
  { unfold s'. clear s'. induction k as [|k IH].
    - simpl. rewrite Z.add_0_r. symmetry. apply Z.mod_small. lia.
    - rewrite Nat2Z.inj_succ. simpl. rewrite IH.
      set (c := ((DICOMViewer.currentSlice s + Z.of_nat k)
                 mod (maxSlice + 1))%Z).
      assert (Hcr : (0 <= c < maxSlice + 1)%Z)
        by (apply Z.mod_pos_bound; lia).
      replace (DICOMViewer.currentSlice s + Z.succ (Z.of_nat k))%Z
        with ((DICOMViewer.currentSlice s + Z.of_nat k) + 1)%Z by lia.
      rewrite <- Z.add_mod_idemp_l by lia. fold c.
      destruct (maxSlice <? c + 1)%Z eqn:Hw.
      + apply Z.ltb_lt in Hw. assert (c = maxSlice) by lia. subst c.
        rewrite H. rewrite Z.mod_same by lia. reflexivity.
      + apply Z.ltb_ge in Hw. symmetry. apply Z.mod_small. lia. }
  split; [exact Hc|]. split.
  - rewrite Hc.
    pose proof (Z.mod_pos_bound
                  (DICOMViewer.currentSlice s + Z.of_nat k) (maxSlice + 1)).
    lia.
  - intros Hk. rewrite Hc, Hk.
    rewrite <- Z.add_mod_idemp_r by lia. rewrite Z.mod_same by lia.
    rewrite Z.add_0_r. apply Z.mod_small. lia.
Qed.

Lemma playback_cycles_through_the_stack_witness :
  DICOMViewer.currentSlice
    (Nat.iter 5 (DICOMViewer.playTick 3)
       (DICOMViewer.mk 2 2 4 1)) = ((2 + 5) mod (3 + 1))%Z.
Proof.
  refine (proj1 (playback_cycles_through_the_stack 3
                   (DICOMViewer.mk 2 2 4 1) 5 _)).
  simpl; lia.
Defined.

(** X20.  The zoom stays between 0.1 and 10 under wheel, scroll-drag and
    the "-" and "+" buttons, and a wheel event with the control key brings
    any zoom into that range. *)
Theorem zoom_stays_in_range :
  (forall evs s, zoomOk s -> zoomOk (DICOMViewer.run s evs))
  /\ (forall deltaY s, zoomOk (DICOMViewer.handleWheel deltaY true s)).
Proof.
  split.
  - induction evs as [|ev evs IH]; intros s Hs; [exact Hs|].
    apply IH, step_zoom_ok, Hs.
  - intros deltaY s. unfold zoomOk, DICOMViewer.handleWheel. simpl.
    split; clamp_cases; lra.
Qed.

Lemma zoom_stays_in_range_witness :
  zoomOk
    (DICOMViewer.run DICOMViewer.init
       [DICOMViewer.ZoomIn; DICOMViewer.Wheel 3 true; DICOMViewer.ZoomOut]).
Proof.
  refine (proj1 zoom_stays_in_range
            [DICOMViewer.ZoomIn; DICOMViewer.Wheel 3 true; DICOMViewer.ZoomOut]
            DICOMViewer.init _).
  unfold zoomOk; qcompute.
Defined.

(** * The workflow with the awaits of the handlers

    In the sections above a handler that awaits a backend call runs in one
    step.  Here the handler stops at its [await] and its continuation is an
    event of its own, so that other events can come in between:
    [handleEndPlanning] at [await savePlanning], [handleStartScan] at [await
    applyReconstruction], [handleStopCt] at [await stopCt] and [loadScout] at
    [await getScoutImage].  The panel's [loading] is true exactly while
    [handleEndPlanning] or [handleStartScan] is suspended, and disables every
    button of the panel; the case selector, the playback and the mouse are
    not disabled.  A continuation runs to its end before the next event. *)

Module Async.

(** The panel handler that is suspended. *)
Inductive PanelAwait : Type := AwaitSave | AwaitRecon.

Record State : Type := mk {
  app : App.State;
  pending : option PanelAwait;
  stopsPending : nat;
  scoutsPending : nat }.

Definition init : State := mk App.init None 0 0.

Definition loading (s : State) : bool :=
  match pending s with
  | Some _ => true
  | None => false
  end.

(** The guard of the viewer's reload effect, between the state before and
    after a handler. *)
Definition reloadRequested (old new : App.State) : bool :=
  (negb (Z.eqb (SimTomLayout.scoutRefreshToken (App.layout old))
               (SimTomLayout.scoutRefreshToken (App.layout new)))
   || negb (String.eqb (App.caseId old) (App.caseId new)))
  && Z.ltb 0 (SimTomLayout.scoutRefreshToken (App.layout new))
  && negb (String.eqb (App.caseId new) EmptyString).

(** The continuation of [loadScout]. *)
Definition scoutArrives (scout : ScoutOutcome) (a : App.State) : App.State :=
  let loaded :=
    App.mk (App.layout a) (App.panel a)
           (ScoutViewer.loadScout (App.viewer a) scout) in
  match scout with
  | Loaded _ _ => App.notifyPlanning loaded
  | _ => loaded
  end.

(** The state after a handler that took the application from [app s] to
    [a'], with the [loadScout] its effects start. *)
Definition afterHandler (s : State) (a' : App.State) : State :=
  mk a' (pending s) (stopsPending s)
     (if reloadRequested (app s) a' then S (scoutsPending s)
      else scoutsPending s).

(** [onPlanningEnd()] *)
Definition planningEnds (now : Z) (a : App.State) : App.State :=
  App.mk (SimTomLayout.handlePlanningEnd now (App.layout a)) (App.panel a)
         (App.viewer a).

(** [onScanStateChange({ isScanning: true, currentSlice: 0, totalSlices: 0 })] *)
Definition scanStarts (a : App.State) : App.State :=
  App.mk (SimTomLayout.handleScanStateChange
            (ScanState.mkPartial (Some true) (Some 0%Z) (Some 0%Z))
            (App.layout a))
         (App.panel a) (App.viewer a).

(** [setPlanningCompleted(true)] *)
Definition planningSaved (a : App.State) : App.State :=
  App.mk (App.layout a) (LeftControlPanel.mk true) (App.viewer a).

Inductive Event : Type :=
| ClickScoutScan (now : Z)
| ScoutSettled (scout : ScoutOutcome)
| ClickStartPlanning
| ClickEndPlanning (now : Z)
| SaveSettled (save : CallOutcome) (now : Z)
| ClickScanButton
| ReconSettled (recon : CallOutcome)
| ClickStop
| StopSettled (stop : CallOutcome)
| SelectCase (newCaseId : string)
| ScanComplete
| MouseDown (target : DragTarget) (e : MouseEvent.t)
| MouseMove (rect : DOMRect.t) (e : MouseEvent.t)
| MouseUp.

Definition withApp (s : State) (a' : App.State) : State :=
  mk a' (pending s) (stopsPending s) (scoutsPending s).

Definition step (s : State) (ev : Event) : State :=
  let a := app s in
  match ev with
  | ClickScoutScan now =>
      if loading s || App.scanning a then s
      else afterHandler s (App.onPanel (LeftControlPanel.handleScoutScan now) a)
  | ScoutSettled scout =>
      match scoutsPending s with
      | O => s
      | S n => mk (scoutArrives scout a) (pending s) (stopsPending s) n
      end
  | ClickStartPlanning =>
      if negb (App.canStartPlanning a) || loading s then s
      else withApp s (App.startPlanning a)
  | ClickEndPlanning now =>
      if negb (App.canEndPlanning a) || loading s then s
      else if LeftControlPanel.wellFormed (App.planningData a)
           then mk a (Some AwaitSave) (stopsPending s) (scoutsPending s)
           else afterHandler s (planningEnds now a)
  | SaveSettled save now =>
      match pending s with
      | Some AwaitSave =>
          let saved :=
            match save with
            | Resolved => planningSaved a
            | Rejected => a
            end in
          afterHandler (mk a None (stopsPending s) (scoutsPending s))
                       (planningEnds now saved)
      | _ => s
      end
  | ClickScanButton =>
      if (negb (App.canStartScan a) && negb (App.scanning a)) || loading s
      then s
      else if App.scanning a then withApp s (App.stopScan a)
      else if String.eqb (App.caseId a) EmptyString
           then withApp s (scanStarts a)
           else mk a (Some AwaitRecon) (stopsPending s) (scoutsPending s)
  | ReconSettled recon =>
      match pending s with
      | Some AwaitRecon =>
          mk match recon with
             | Resolved => scanStarts a
             | Rejected => a
             end
             None (stopsPending s) (scoutsPending s)
      | _ => s
      end
  | ClickStop =>
      if loading s then s
      else mk a (pending s) (S (stopsPending s)) (scoutsPending s)
  | StopSettled stop =>
      match stopsPending s with
      | O => s
      | S n =>
          mk match stop with
             | Resolved => App.stopScan a
             | Rejected => a
             end
             (pending s) n (scoutsPending s)
      end
  | SelectCase newCaseId => withApp s (App.caseChange newCaseId a)
  | ScanComplete => withApp s (App.scanComplete a)
  | MouseDown target e =>
      if App.overlayShown a then withApp s (App.mouseDown target e a) else s
  | MouseMove rect e => withApp s (App.mouseMove rect e a)
  | MouseUp => withApp s (App.mouseUp a)
  end.

Definition run (s : State) (tr : list Event) : State := fold_left step tr s.

(** A state in which nothing is suspended. *)
Definition quiet (a : App.State) : State := mk a None 0 0.

End Async.

Section AsyncFacts.

Import Async.

(** The atomic reload effect is the request followed at once by the
    arrival of the scout. *)
Lemma refreshEffect_split old scout new :
  App.refreshEffect old scout new
  = if reloadRequested old new then scoutArrives scout new else new.
Proof. reflexivity. Qed.

(** Each atomic step is the click followed at once by its
    continuations. *)
Definition settledAtOnce (ev : App.Event) : list Event :=
  match ev with
  | App.ClickScoutScan now scout => [ClickScoutScan now; ScoutSettled scout]
  | App.ClickStartPlanning => [ClickStartPlanning]
  | App.ClickEndPlanning save now scout =>
      [ClickEndPlanning now; SaveSettled save now; ScoutSettled scout]
  | App.ClickScanButton recon => [ClickScanButton; ReconSettled recon]
  | App.ClickStop stop => [ClickStop; StopSettled stop]
  | App.SelectCase id => [SelectCase id]
  | App.ScanComplete => [ScanComplete]
  | App.MouseDown target e => [MouseDown target e]
  | App.MouseMove rect e => [MouseMove rect e]
  | App.MouseUp => [MouseUp]
  end.

Lemma App_state_eta (a : App.State) :
  App.mk (App.layout a) (App.panel a) (App.viewer a) = a.
Proof. destruct a; reflexivity. Qed.

Lemma atomic_step_settled_at_once a ev :
  run (quiet a) (settledAtOnce ev) = quiet (App.step a ev).
Proof.
  destruct ev; unfold run, quiet; simpl.
  - destruct (App.scanning a); [reflexivity|].
    unfold afterHandler, App.scoutScan. simpl. rewrite refreshEffect_split.
    destruct (reloadRequested _ _); reflexivity.
  - destruct (App.canStartPlanning a); reflexivity.
  - destruct (App.canEndPlanning a); [|reflexivity]. simpl.
    unfold App.endPlanning. rewrite refreshEffect_split.
    unfold App.onPanel, LeftControlPanel.handleEndPlanning. simpl.
    fold (App.planningData a).
    destruct (LeftControlPanel.wellFormed (App.planningData a)); simpl.
    + unfold afterHandler. simpl.
      destruct save; unfold planningEnds, planningSaved; simpl;
        destruct (reloadRequested _ _); reflexivity.
    + unfold afterHandler. simpl. unfold planningEnds.
      destruct (reloadRequested _ _); reflexivity.
  - unfold App.canStartScan, LeftControlPanel.canStartScan.
    fold (App.planningCompleted a). fold (App.scanning a).
    destruct (App.scanning a) eqn:Hs; simpl.
    + rewrite andb_false_r. reflexivity.
    + rewrite !andb_true_r.
      destruct (App.planningCompleted a); simpl; [|reflexivity].
      unfold App.startScan, App.onPanel, LeftControlPanel.handleStartScan.
      simpl. fold (App.caseId a).
      destruct (String.eqb (App.caseId a) EmptyString); simpl;
        [reflexivity|].
      destruct recon; [reflexivity|]. destruct a; reflexivity.
  - unfold App.stopCt, App.onPanel, LeftControlPanel.handleStopCt.
    destruct stop; [reflexivity|]. destruct a; reflexivity.
  - reflexivity.
  - reflexivity.
  - destruct (App.overlayShown a); reflexivity.
  - reflexivity.
  - reflexivity.
Qed.

Lemma async_run_app s t1 t2 : run s (t1 ++ t2) = run (run s t1) t2.
Proof. apply fold_left_app. Qed.

(** Every run of the atomic workflow is a run of the interleaved one. *)
Lemma atomic_run_settled_at_once tr :
  forall a, run (quiet a) (flat_map settledAtOnce tr) = quiet (App.run a tr).
Proof.
  induction tr as [|ev tr IH]; intros a; [reflexivity|].
  simpl flat_map. rewrite async_run_app, atomic_step_settled_at_once.
  apply IH.
Qed.

End AsyncFacts.

(** ** The gate under interleaving *)

Section AsyncGate.

Import Async.

Definition Facts : Type := (bool * bool * bool * bool)%type.

(** What an event does to the four facts (scout completed, planning active,
    planning completed, scanning) and to the suspended handler; [wf] says
    that the planning data is well-formed, [noCase] that no case is selected,
    [same] compares an identifier with the selected one. *)
Definition gateStep (f : Facts) (p : option PanelAwait) (stops : nat)
    (wf noCase : bool) (same : string -> bool) (ev : Event)
  : Facts * option PanelAwait :=
  let '(sc, act, pc, scn) := f in
  let ld := match p with Some _ => true | None => false end in
  match ev with
  | ClickScoutScan _ =>
      if ld || scn then (f, p) else ((true, act, pc, scn), p)
  | ClickStartPlanning =>
      if negb (sc && negb act && negb pc) || ld then (f, p)
      else ((sc, true, pc, scn), p)
  | ClickEndPlanning _ =>
      if negb act || ld then (f, p)
      else if wf then (f, Some AwaitSave)
      else ((sc, false, pc, scn), p)
  | SaveSettled save _ =>
      match p with
      | Some AwaitSave =>
          ((sc, false,
            match save with Resolved => true | Rejected => pc end, scn),
           None)
      | _ => (f, p)
      end
  | ClickScanButton =>
      if (negb (pc && negb scn) && negb scn) || ld then (f, p)
      else if scn then ((sc, act, pc, false), p)
      else if noCase then ((sc, act, pc, true), p)
      else (f, Some AwaitRecon)
  | ReconSettled recon =>
      match p with
      | Some AwaitRecon =>
          ((sc, act, pc,
            match recon with Resolved => true | Rejected => scn end), None)
      | _ => (f, p)
      end
  | StopSettled stop =>
      match stops with
      | O => (f, p)
      | S _ =>
          ((sc, act, pc,
            match stop with Resolved => false | Rejected => scn end), p)
      end
  | SelectCase id =>
      ((false, false, if same id then pc else false, false), p)
  | ScanComplete => ((sc, act, pc, false), p)
  | ScoutSettled _ | ClickStop | MouseDown _ _ | MouseMove _ _ | MouseUp =>
      (f, p)
  end.

Lemma scoutArrives_facts scout a : facts (scoutArrives scout a) = facts a.
Proof.
  unfold scoutArrives. destruct scout; reflexivity.
Qed.

Lemma async_step_gate s ev :
  (facts (app (step s ev)), pending (step s ev))
  = gateStep (facts (app s)) (pending s) (stopsPending s)
      (LeftControlPanel.wellFormed (App.planningData (app s)))
      (String.eqb (App.caseId (app s)) EmptyString)
      (String.eqb (App.caseId (app s))) ev.
Proof.
  destruct s as [a p sp so]. unfold step, loading. simpl app. simpl pending.
  simpl stopsPending. simpl scoutsPending.
  destruct ev.
  - destruct a as [[c t act [scn cur tot] d sc] [pc] v].
    destruct p, scn; reflexivity.
  - destruct so; [destruct a as [[c t act [scn cur tot] d sc] [pc] v];
                  reflexivity|].
    simpl. rewrite scoutArrives_facts.
    destruct a as [[c t act [scn cur tot] d sc] [pc] v]. reflexivity.
  - destruct a as [[c t act [scn cur tot] d sc] [pc] v].
    destruct p, sc, act, pc; reflexivity.
  - destruct a as [[c t act [scn cur tot] d sc] [pc] v].
    unfold App.planningData. simpl.
    destruct p, act, (LeftControlPanel.wellFormed d); reflexivity.
  - destruct a as [[c t act [scn cur tot] d sc] [pc] v].
    destruct p as [[|]|]; [destruct save| |]; reflexivity.
  - destruct a as [[c t act [scn cur tot] d sc] [pc] v].
    unfold App.caseId. simpl.
    destruct p, scn, pc, (String.eqb c EmptyString); reflexivity.
  - destruct a as [[c t act [scn cur tot] d sc] [pc] v].
    destruct p as [[|]|]; [|destruct recon|]; reflexivity.
  - destruct a as [[c t act [scn cur tot] d sc] [pc] v].
    destruct p; reflexivity.
  - destruct a as [[c t act [scn cur tot] d sc] [pc] v].
    destruct sp; [|destruct stop]; reflexivity.
  - simpl. rewrite caseChange_facts.
    destruct a as [[c t act [scn cur tot] d sc] [pc] v]. reflexivity.
  - destruct a as [[c t act [scn cur tot] d sc] [pc] v]. reflexivity.
  - destruct (App.overlayShown a);
      destruct a as [[c t act [scn cur tot] d sc] [pc] v]; reflexivity.
  - simpl. rewrite mouseMove_facts.
    destruct a as [[c t act [scn cur tot] d sc] [pc] v]. reflexivity.
  - destruct a as [[c t act [scn cur tot] d sc] [pc] v]. reflexivity.
Qed.

(** The invariant of the gate: planning is active only on a completed
    scout, before the planning is completed and without a scan; while a scan
    runs nothing is suspended and the planning is completed or the scout is
    not; while [handleStartScan] is suspended planning is not active and the
    planning is completed or the scout is not. *)
Definition gateOk (g : Facts * option PanelAwait) : bool :=
  let '((sc, act, pc, scn), p) := g in
  implb act (sc && negb pc && negb scn)
  && implb scn ((pc || negb sc)
                && match p with None => true | Some _ => false end)
  && match p with
     | Some AwaitRecon => negb act && (pc || negb sc)
     | _ => true
     end.

Lemma gateOk_step f p stops wf noCase same ev :
  gateOk (f, p) = true ->
  gateOk (gateStep f p stops wf noCase same ev) = true.
Proof.
  destruct f as [[[sc act] pc] scn].
  destruct ev; simpl;
    try destruct (same newCaseId);
    try destruct save; try destruct recon; try destruct stop;
    try destruct stops;
    destruct p as [[|]|], sc, act, pc, scn, wf, noCase; simpl;
    intros H; try reflexivity; try discriminate H.
Qed.

(** The same with a scan only on a completed planning; it is kept as long
    as no case is selected. *)
Definition scanOk (g : Facts * option PanelAwait) : bool :=
  let '((sc, act, pc, scn), p) := g in
  gateOk g && implb scn pc
  && match p with
     | Some AwaitRecon => pc
     | _ => true
     end.

Definition isSelect (ev : Event) : bool :=
  match ev with
  | SelectCase _ => true
  | _ => false
  end.

Lemma scanOk_step f p stops wf noCase same ev :
  isSelect ev = false ->
  scanOk (f, p) = true ->
  scanOk (gateStep f p stops wf noCase same ev) = true.
Proof.
  destruct f as [[[sc act] pc] scn].
  destruct ev; simpl; intros He; try discriminate He;
    try destruct save; try destruct recon; try destruct stop;
    try destruct stops;
    destruct p as [[|]|], sc, act, pc, scn, wf, noCase; simpl;
    intros H; try reflexivity; try discriminate H.
Qed.

Definition gate (s : State) : Facts * option PanelAwait :=
  (facts (app s), pending s).

Lemma gateOk_run tr : forall s, gateOk (gate s) = true ->
                                gateOk (gate (run s tr)) = true.
Proof.
  induction tr as [|ev tr IH]; intros s Hs; [exact Hs|].
  apply IH. unfold gate. rewrite async_step_gate.
  apply gateOk_step, Hs.
Qed.

Lemma scanOk_run tr :
  forall s, existsb isSelect tr = false ->
            scanOk (gate s) = true -> scanOk (gate (run s tr)) = true.
Proof.
  induction tr as [|ev tr IH]; intros s Hsel Hs; [exact Hs|].
  simpl in Hsel. apply orb_false_elim in Hsel as [Hev Hsel].
  apply IH; [exact Hsel|]. unfold gate. rewrite async_step_gate.
  apply scanOk_step; assumption.
Qed.

End AsyncGate.

Lemma gate_facts_eq s sc act pc scn p :
  gate s = ((sc, act, pc, scn), p) ->
  App.scoutCompleted (Async.app s) = sc
  /\ App.isPlanningActive (Async.app s) = act
  /\ App.planningCompleted (Async.app s) = pc
  /\ App.scanning (Async.app s) = scn
  /\ Async.pending s = p.
Proof.
  unfold gate, facts. intros H.
  apply pair_equal_spec in H as [H Hp].
  apply pair_equal_spec in H as [H H4].
  apply pair_equal_spec in H as [H H3].
  apply pair_equal_spec in H as [H1 H2]. tauto.
Qed.

(** X12.  In every state the operator can reach, with the continuations of
    the awaited calls arriving at any later moment: planning is active only
    after a completed scout, with [planningCompleted] false and no scan
    running; while a scan runs no panel handler is suspended; and at most one
    of Start Planning, End Planning and Start Scan is enabled. *)
Theorem workflow_order_and_exclusive_buttons :
  forall tr,
    let s := Async.run Async.init tr in
    let a := Async.app s in
    (App.isPlanningActive a = true ->
       App.scoutCompleted a = true
       /\ App.planningCompleted a = false
       /\ App.scanning a = false)
    /\ (App.scanning a = true -> Async.loading s = false)
    /\ App.canStartPlanning a && App.canEndPlanning a = false
    /\ App.canStartPlanning a && App.canStartScan a = false
    /\ App.canEndPlanning a && App.canStartScan a = false.
Proof.
  intros tr s a.
  assert (Hok : gateOk (gate s) = true).
  { apply gateOk_run. reflexivity. }
  destruct (gate s) as [[[[sc act] pc] scn] p] eqn:Hg.
  destruct (gate_facts_eq s _ _ _ _ _ Hg) as (H1 & H2 & H3 & H4 & Hp).
  fold a in H1, H2, H3, H4.
  change (App.canEndPlanning a) with (App.isPlanningActive a).
  rewrite canStartPlanning_facts, canStartScan_facts.
  unfold Async.loading. rewrite H1, H2, H3, H4, Hp.
  revert Hok. unfold gateOk.
  destruct p as [[|]|], sc, act, pc, scn; simpl; intros Hok;
    try discriminate Hok; repeat split; intros; try reflexivity;
    try discriminate.
Qed.

Lemma workflow_order_and_exclusive_buttons_witness :
  let s := Async.run Async.init
             [Async.SelectCase "A"; Async.ClickScoutScan 5%Z;
              Async.ClickStartPlanning;
              Async.ScoutSettled (Loaded 800 1000)] in
  App.scoutCompleted (Async.app s) = true
  /\ App.planningCompleted (Async.app s) = false
  /\ App.scanning (Async.app s) = false.
Proof.
  exact (proj1 (workflow_order_and_exclusive_buttons
                  [Async.SelectCase "A"; Async.ClickScoutScan 5%Z;
                   Async.ClickStartPlanning;
                   Async.ScoutSettled (Loaded 800 1000)]) eq_refl).
Defined.

(** X16.  Stopping a scan enables Start Scan again as long as no case has
    been selected since the scan was requested.  From a reachable state with
    no scan running and no panel handler suspended, after any events that
    select no case (continuations arriving at any moment), if a scan is
    running then the Stop Scan button, the end of the playback and a
    resolving STOP each end the scan and leave Start Scan enabled
    ([canStartScan] true, [loading] false). *)
Theorem stopping_a_scan_enables_start_scan_again :
  forall tr0 tr,
    let s0 := Async.run Async.init tr0 in
    App.scanning (Async.app s0) = false ->
    Async.pending s0 = None ->
    existsb isSelect tr = false ->
    let s := Async.run s0 tr in
    App.scanning (Async.app s) = true ->
    let stopped s' :=
      App.scanning (Async.app s') = false
      /\ App.canStartScan (Async.app s') = true
      /\ Async.loading s' = false in
    stopped (Async.step s Async.ClickScanButton)
    /\ stopped (Async.step s Async.ScanComplete)
    /\ (Async.stopsPending s <> O ->
        stopped (Async.step s (Async.StopSettled Resolved))).
Proof.
  intros tr0 tr s0 Hs0 Hp0 Hsel s Hscan stopped.
  assert (H0 : scanOk (gate s0) = true).
  { assert (Hok : gateOk (gate s0) = true)
      by (apply gateOk_run; reflexivity).
    destruct (gate s0) as [[[[sc act] pc] scn] p] eqn:Hg.
    destruct (gate_facts_eq s0 _ _ _ _ _ Hg) as (_ & _ & _ & H4 & Hp).
    unfold scanOk. rewrite Hok.
    rewrite Hs0 in H4. rewrite Hp0 in Hp. subst scn p. reflexivity. }
  pose proof (scanOk_run tr s0 Hsel H0) as Hok. fold s in Hok.
  destruct (gate s) as [[[[sc act] pc] scn] p] eqn:Hg.
  destruct (gate_facts_eq s _ _ _ _ _ Hg) as (_ & _ & _ & H4 & Hp).
  rewrite Hscan in H4. subst scn.
  assert (Hstop : forall ev,
            gateStep (sc, act, pc, true) p (Async.stopsPending s)
              (LeftControlPanel.wellFormed (App.planningData (Async.app s)))
              (String.eqb (App.caseId (Async.app s)) EmptyString)
              (String.eqb (App.caseId (Async.app s))) ev
            = ((sc, act, true, false), None) ->
            stopped (Async.step s ev)).
  { intros ev Hev.
    pose proof (async_step_gate s ev) as Hst.
    pose proof Hg as Hg'. unfold gate in Hg'.
    apply pair_equal_spec in Hg' as [Hf' Hp'].
    rewrite Hf', Hp', Hev in Hst.
    change (gate (Async.step s ev) = (sc, act, true, false, None)) in Hst.
    destruct (gate_facts_eq _ _ _ _ _ _ Hst) as (_ & _ & E3 & E4 & Ep).
    unfold stopped, Async.loading.
    rewrite canStartScan_facts, E3, E4, Ep. repeat split. }
  assert (Hpc : pc = true /\ p = None).
  { revert Hok. unfold scanOk, gateOk.
    destruct p as [[|]|], sc, act, pc; simpl; intros H;
      try discriminate H; split; reflexivity. }
  destruct Hpc as [-> ->].
  split; [apply Hstop; reflexivity|].
  split; [apply Hstop; reflexivity|].
  intros Hn. apply Hstop.
  destruct (Async.stopsPending s); [congruence|reflexivity].
Qed.

Lemma stopping_a_scan_enables_start_scan_again_witness :
  let s := Async.run
             (Async.run Async.init
                [Async.SelectCase "A"; Async.ClickScoutScan 5%Z;
                 Async.ScoutSettled (Loaded 800 1000);
                 Async.ClickStartPlanning; Async.ClickEndPlanning 6%Z;
                 Async.SaveSettled Resolved 7%Z;
                 Async.ScoutSettled (Loaded 800 1000)])
             [Async.ClickScanButton; Async.ReconSettled Resolved] in
  App.scanning (Async.app s) = true
  /\ App.canStartScan (Async.app (Async.step s Async.ScanComplete)) = true.
Proof.
  split; [reflexivity|].
  exact (proj1 (proj2 (proj1 (proj2
           (stopping_a_scan_enables_start_scan_again
              [Async.SelectCase "A"; Async.ClickScoutScan 5%Z;
               Async.ScoutSettled (Loaded 800 1000);
               Async.ClickStartPlanning; Async.ClickEndPlanning 6%Z;
               Async.SaveSettled Resolved 7%Z;
               Async.ScoutSettled (Loaded 800 1000)]
              [Async.ClickScanButton; Async.ReconSettled Resolved]
              eq_refl eq_refl eq_refl eq_refl))))).
Defined.

(** What the hypothesis of X16 excludes: a case selected while
    [applyReconstruction] is awaited.  The continuation starts the scan on
    the new case, whose planning is not completed; stopping that scan leaves
    Start Scan disabled. *)
Lemma case_selected_during_reconstruction :
  let s := Async.run Async.init
             [Async.SelectCase "A"; Async.ClickScoutScan 5%Z;
              Async.ScoutSettled (Loaded 800 1000);
              Async.ClickStartPlanning; Async.ClickEndPlanning 6%Z;
              Async.SaveSettled Resolved 7%Z;
              Async.ScoutSettled (Loaded 800 1000);
              Async.ClickScanButton; Async.SelectCase "B";
              Async.ReconSettled Resolved] in
  App.caseId (Async.app s) = "B"%string
  /\ App.scanning (Async.app s) = true
  /\ App.planningCompleted (Async.app s) = false
  /\ App.canStartScan (Async.app (Async.step s Async.ScanComplete)) = false.
Proof. vm_compute. repeat split. Qed.
